(** * mcp-rest-api: the [endpoint] tool of [src/index.ts]

    A shallow embedding of the request-normalisation and response-envelope
    code of the REST tester server, and the properties of it that the
    specification states.

    Conventions of the embedding.
    - A JavaScript value is a [JsValue].  Numbers are the integers ([Z]);
      the code only computes with an HTTP status and a difference of two
      clock readings, both integers.
    - A JavaScript string is a [string], read as its UTF-8 bytes; the code
      looks inside a string only to compare a character with the slash, and
      to encode its bytes in base64.
    - An object is the list of its own properties in enumeration order.
    - [JSON.stringify(v, null, 2)] is embedded up to the JSON tree it prints
      ([JSON_stringify]): which properties survive, and with which values.
      The rendering of that tree as indented text is not modelled.
    - The handler is [async]; it runs in the monad [M] of a world holding the
      clock and the log of the requests handed to the HTTP client, and may
      throw. *)

From Stdlib Require Import String Ascii List ZArith NArith Bool Lia.
From Stdlib Require Import DecimalString.
Import ListNotations.
Local Open Scope string_scope.
Local Open Scope Z_scope.

(** ** JavaScript values *)

#[local] Set Warnings "-register-all".

Inductive JsValue : Type :=
| JUndefined
| JNull
| JBool (b : bool)
| JNum (n : Z)
| JStr (s : string)
| JArr (items : list JsValue)
| JObj (props : list (string * JsValue)).

(** [typeof v] *)
Definition typeof (v : JsValue) : string :=
  match v with
  | JUndefined => "undefined"
  | JNull => "object"
  | JBool _ => "boolean"
  | JNum _ => "number"
  | JStr _ => "string"
  | JArr _ => "object"
  | JObj _ => "object"
  end.

(** ToBoolean: what [if (v)], [!v], [a && b] and [a || b] test. *)
Definition truthy (v : JsValue) : bool :=
  match v with
  | JUndefined => false
  | JNull => false
  | JBool b => b
  | JNum n => negb (n =? 0)
  | JStr s => negb (s =? "")%string
  | JArr _ => true
  | JObj _ => true
  end.

(** [a && b] and [a || b] on values (they return an operand, not a boolean). *)
Definition js_and (a b : JsValue) : JsValue := if truthy a then b else a.
Definition js_or (a b : JsValue) : JsValue := if truthy a then a else b.

(** Strict equality [===] on the values the code compares: primitives by
    value; two objects or arrays reaching the code from separate places are
    never the same object. *)
Definition strict_eq (a b : JsValue) : bool :=
  match a, b with
  | JUndefined, JUndefined => true
  | JNull, JNull => true
  | JBool x, JBool y => Bool.eqb x y
  | JNum x, JNum y => x =? y
  | JStr x, JStr y => (x =? y)%string
  | _, _ => false
  end.

(** [xs.includes(v)] *)
Definition includes (xs : list JsValue) (v : JsValue) : bool :=
  existsb (fun x => strict_eq x v) xs.

(** Number to string, as a template literal does for an integer. *)
Definition Z_to_string (n : Z) : string := NilZero.string_of_int (Z.to_int n).
Definition N_to_string (n : N) : string := NilZero.string_of_uint (N.to_uint n).

(** [`${v}`] for a value that is a string or undefined (an environment
    variable). *)
Definition template (v : option string) : string :=
  match v with
  | Some s => s
  | None => "undefined"
  end.

Definition of_env (v : option string) : JsValue :=
  match v with
  | Some s => JStr s
  | None => JUndefined
  end.

(** *** Property keys and objects *)

Definition is_digit (c : ascii) : bool :=
  let n := N_of_ascii c in ((48 <=? n) && (n <=? 57))%N.

Fixpoint digits_value (s : string) (acc : N) : option N :=
  match s with
  | EmptyString => Some acc
  | String c r =>
      if is_digit c then digits_value r (10 * acc + (N_of_ascii c - 48))%N
      else None
  end.

(** An array index is a canonical numeric key below 2^32 - 1; such keys
    are enumerated first, in ascending order. *)
Definition array_index (k : string) : option N :=
  match k with
  | EmptyString => None
  | String c r =>
      if (Ascii.eqb c "0" && negb (r =? "")%string) then None
      else match digits_value k 0%N with
           | Some n => if (n <? 4294967295)%N then Some n else None
           | None => None
           end
  end.

Definition Props : Type := list (string * JsValue).

Fixpoint obj_lookup (k : string) (ps : Props) : option JsValue :=
  match ps with
  | [] => None
  | (k', v) :: r => if (k' =? k)%string then Some v else obj_lookup k r
  end.

Definition obj_has (k : string) (ps : Props) : bool :=
  match obj_lookup k ps with
  | Some _ => true
  | None => false
  end.

Definition obj_keys (ps : Props) : list string := map fst ps.

(** Overwriting an existing property keeps its place. *)
Fixpoint obj_replace (k : string) (v : JsValue) (ps : Props) : Props :=
  match ps with
  | [] => []
  | (k', v') :: r =>
      if (k' =? k)%string then (k, v) :: r else (k', v') :: obj_replace k v r
  end.

(** A new array-index key goes before the first key that is not an index
    or is a larger index. *)
Fixpoint obj_insert_index (n : N) (k : string) (v : JsValue) (ps : Props) : Props :=
  match ps with
  | [] => [(k, v)]
  | (k', v') :: r =>
      match array_index k' with
      | Some m =>
          if (m <? n)%N then (k', v') :: obj_insert_index n k v r
          else (k, v) :: ps
      | None => (k, v) :: ps
      end
  end.

(** Defining the own property [k] with value [v], as an object literal
    or a spread does for each property. *)
Definition obj_set (k : string) (v : JsValue) (ps : Props) : Props :=
  if obj_has k ps then obj_replace k v ps
  else match array_index k with
       | Some n => obj_insert_index n k v ps
       | None => (ps ++ [(k, v)])%list
       end.

Fixpoint indexed (i : N) (xs : list JsValue) : Props :=
  match xs with
  | [] => []
  | x :: r => (N_to_string i, x) :: indexed (N.succ i) r
  end.

Fixpoint chars (s : string) : list JsValue :=
  match s with
  | EmptyString => []
  | String c r => JStr (String c EmptyString) :: chars r
  end.

(** The own enumerable properties that [{...v}] copies. *)
Definition own_props (v : JsValue) : Props :=
  match v with
  | JObj ps => ps
  | JArr xs => indexed 0%N xs
  | JStr s => indexed 0%N (chars s)
  | _ => []
  end.

(** [v.k] on an object or an array.  The handler reads a property only
    after its guard has established [typeof v === 'object'] and
    [v !== null]; the keys it reads are not on any prototype. *)
Definition get_prop (v : JsValue) (k : string) : JsValue :=
  match v with
  | JObj ps => match obj_lookup k ps with Some x => x | None => JUndefined end
  | JArr xs =>
      if (k =? "length")%string then JNum (Z.of_nat (length xs))
      else match array_index k with
           | Some n => nth (N.to_nat n) xs JUndefined
           | None => JUndefined
           end
  | _ => JUndefined
  end.

(** *** JSON.stringify, up to the tree it prints

    A property whose value is undefined is left out; an undefined element
    of an array prints as null. *)
Fixpoint JSON_stringify (v : JsValue) : JsValue :=
  match v with
  | JArr xs =>
      JArr (map (fun x => match JSON_stringify x with
                          | JUndefined => JNull
                          | y => y
                          end) xs)
  | JObj ps =>
      JObj ((fix fields (ps : Props) : Props :=
               match ps with
               | [] => []
               | (k, x) :: r =>
                   match x with
                   | JUndefined => fields r
                   | _ => (k, JSON_stringify x) :: fields r
                   end
               end) ps)
  | _ => v
  end.

(** ** Endpoint normalisation (index.ts, line 154) *)

Definition slash : ascii := "/"%char.

Fixpoint all_slashes (s : string) : bool :=
  match s with
  | EmptyString => true
  | String c r => Ascii.eqb c slash && all_slashes r
  end.

(** [/^\/+/] at the start of the input: the longest run of slashes is
    matched and removed. *)
Fixpoint drop_leading_slashes (s : string) : string :=
  match s with
  | EmptyString => EmptyString
  | String c r => if Ascii.eqb c slash then drop_leading_slashes r else s
  end.

(** The scan of a global replace past the start of the input: at each
    position [/\/+$/] matches when what is left is a non-empty run of
    slashes up to the end, and the match is removed; otherwise the
    character is kept and the scan moves on. *)
Fixpoint drop_trailing_slashes (s : string) : string :=
  match s with
  | EmptyString => EmptyString
  | String c r =>
      if all_slashes s then EmptyString
      else String c (drop_trailing_slashes r)
  end.

(** [s.replace(/^\/+|\/+$/g, '')] *)
Definition strip_slashes (s : string) : string :=
  drop_trailing_slashes (drop_leading_slashes s).

(** [`/${endpoint.replace(/^\/+|\/+$/g, '')}`] *)
Definition normalize (endpoint : string) : string :=
  String slash (strip_slashes endpoint).

(** ** Base64, as [Buffer.from(s).toString('base64')] (RFC 4648, padded) *)

Definition base64_alphabet : string :=
  "ABCDEFGHIJKLMNOPQRSTUVWXYZabcdefghijklmnopqrstuvwxyz0123456789+/".

Definition base64_char (n : N) : ascii :=
  match String.get (N.to_nat n) base64_alphabet with
  | Some c => c
  | None => "="%char
  end.

Fixpoint base64 (s : string) : string :=
  match s with
  | EmptyString => EmptyString
  | String a EmptyString =>
      let x := N_of_ascii a in
      String (base64_char (x / 4))
        (String (base64_char ((x mod 4) * 16)) "==")
  | String a (String b EmptyString) =>
      let x := N_of_ascii a in
      let y := N_of_ascii b in
      String (base64_char (x / 4))
        (String (base64_char ((x mod 4) * 16 + y / 16))
           (String (base64_char ((y mod 16) * 4)) "="))
  | String a (String b (String c r)) =>
      let x := N_of_ascii a in
      let y := N_of_ascii b in
      let z := N_of_ascii c in
      String (base64_char (x / 4))
        (String (base64_char ((x mod 4) * 16 + y / 16))
           (String (base64_char ((y mod 16) * 4 + z / 64))
              (String (base64_char (z mod 64)) (base64 r))))
  end%N.

(** ** Configuration (index.ts, lines 12-19) *)

(** [process.env]: each variable is a string or undefined. *)
Record Env : Type := {
  REST_BASE_URL : option string;
  AUTH_BASIC_USERNAME : option string;
  AUTH_BASIC_PASSWORD : option string;
  AUTH_BEARER : option string;
  AUTH_APIKEY_HEADER_NAME : option string;
  AUTH_APIKEY_VALUE : option string
}.

(** The guard of lines 12-14: [true] when the module throws at load. *)
Definition base_url_missing (env : Env) : bool :=
  negb (truthy (of_env (REST_BASE_URL env))).

(** ** Argument guard (index.ts, lines 28-34) *)

Definition isValidEndpointArgs (args : JsValue) : bool :=
  if negb (typeof args =? "object")%string || strict_eq args JNull then false
  else if negb (includes [JStr "GET"; JStr "POST"; JStr "PUT"; JStr "DELETE"]
                  (get_prop args "method")) then false
  else if negb (typeof (get_prop args "endpoint") =? "string")%string then false
  else if negb (strict_eq (get_prop args "headers") JUndefined)
          && negb (typeof (get_prop args "headers") =? "object")%string then false
  else true.

(** ** Credential tests (index.ts, lines 36-38) *)

Definition hasBasicAuth (env : Env) : JsValue :=
  js_and (of_env (AUTH_BASIC_USERNAME env)) (of_env (AUTH_BASIC_PASSWORD env)).

Definition hasBearerAuth (env : Env) : JsValue :=
  JBool (negb (negb (truthy (of_env (AUTH_BEARER env))))).

Definition hasApiKeyAuth (env : Env) : JsValue :=
  js_and (of_env (AUTH_APIKEY_HEADER_NAME env)) (of_env (AUTH_APIKEY_VALUE env)).

(** ** Requests, responses and the world the handler runs in *)

Inductive ErrorCode : Type :=
| MethodNotFound
| InvalidParams.

Inductive Exn : Type :=
| McpError (code : ErrorCode) (message : string)
| AxiosError (message : string) (code : option string)
| OtherError (e : JsValue).


Record AxiosRequestConfig : Type := {
  method : JsValue;
  url : string;
  headers : JsValue;
  data : JsValue
}.

Definition set_data (config : AxiosRequestConfig) (v : JsValue) : AxiosRequestConfig :=
  {| method := method config; url := url config;
     headers := headers config; data := v |}.

Definition set_headers (config : AxiosRequestConfig) (v : JsValue) : AxiosRequestConfig :=
  {| method := method config; url := url config;
     headers := v; data := data config |}.

(** What the handler reads of an axios response; [response_headers] is the
    plain object that the response's header container serialises to. *)
Record AxiosResponse : Type := {
  status : Z;
  statusText : string;
  response_headers : Props;
  response_data : JsValue
}.

(** The world: the wall clock ([Date.now()]) and the requests handed to
    the HTTP client so far. *)
Record World : Type := {
  now : Z;
  sent : list AxiosRequestConfig
}.

(** How the promise of [axiosInstance.request] settles.  The client is
    created with [validateStatus: () => true] (line 59), so every received
    response fulfils the promise, whatever its status. *)
Inductive Settled : Type :=
| Fulfilled (response : AxiosResponse)
| Rejected (error : Exn).

(** The HTTP client and everything beyond it: for a request handed over
    in a world, how the promise settles and what the clock reads then. *)
Definition Remote : Type := AxiosRequestConfig -> World -> Settled * Z.

Inductive Outcome (A : Type) : Type :=
| Returned (a : A)
| Thrown (e : Exn).
Arguments Returned {A} a.
Arguments Thrown {A} e.

Definition M (A : Type) : Type := World -> Outcome A * World.

Definition ret {A} (a : A) : M A := fun w => (Returned a, w).

Definition throw {A} (e : Exn) : M A := fun w => (Thrown e, w).

Definition bind {A B} (c : M A) (k : A -> M B) : M B :=
  fun w =>
    match c w with
    | (Returned a, w') => k a w'
    | (Thrown e, w') => (Thrown e, w')
    end.

Definition try_catch {A} (c : M A) (handler : Exn -> M A) : M A :=
  fun w =>
    match c w with
    | (Returned a, w') => (Returned a, w')
    | (Thrown e, w') => handler e w'
    end.

Notation "x <- c ;; k" := (bind c (fun x => k))
  (at level 61, c at next level, right associativity).

Definition Date_now : M Z := fun w => (Returned (now w), w).

Definition axios_request (remote : Remote) (config : AxiosRequestConfig)
  : M AxiosResponse :=
  fun w =>
    let (settled, t) := remote config w in
    let w' := {| now := t; sent := (sent w ++ [config])%list |} in
    match settled with
    | Fulfilled response => (Returned response, w')
    | Rejected error => (Thrown error, w')
    end.

(** ** The tool-call handler (index.ts, lines 138-253) *)

Record TextContent : Type := {
  content_type : string;
  (** the tree that [JSON.stringify(..., null, 2)] prints *)
  text : JsValue
}.

Record CallToolResult : Type := {
  content : list TextContent;
  isError : option bool
}.

(** The string held by a value that the guard has shown to be a string. *)
Definition string_of (v : JsValue) : string :=
  match v with
  | JStr s => s
  | _ => EmptyString
  end.

(** Lines 157-161. *)
Definition initial_config (args : JsValue) (normalizedEndpoint : string)
  : AxiosRequestConfig :=
  {| method := get_prop args "method";
     url := normalizedEndpoint;
     headers := js_or (get_prop args "headers") (JObj []);
     data := JUndefined |}.

(** Lines 163-166. *)
Definition attach_body (args : JsValue) (config : AxiosRequestConfig)
  : AxiosRequestConfig :=
  if includes [JStr "POST"; JStr "PUT"] (get_prop args "method")
     && truthy (get_prop args "body")
  then set_data config (get_prop args "body")
  else config.

(** Lines 168-185. *)
Definition inject_auth (env : Env) (config : AxiosRequestConfig)
  : AxiosRequestConfig :=
  if truthy (hasBasicAuth env) then
    let base64Credentials :=
      base64 (template (AUTH_BASIC_USERNAME env) ++ ":"
              ++ template (AUTH_BASIC_PASSWORD env)) in
    set_headers config
      (JObj (obj_set "Authorization" (JStr ("Basic " ++ base64Credentials))
               (own_props (headers config))))
  else if truthy (hasBearerAuth env) then
    set_headers config
      (JObj (obj_set "Authorization"
               (JStr ("Bearer " ++ template (AUTH_BEARER env)))
               (own_props (headers config))))
  else if truthy (hasApiKeyAuth env) then
    set_headers config
      (JObj (obj_set (template (AUTH_APIKEY_HEADER_NAME env))
               (of_env (AUTH_APIKEY_VALUE env))
               (own_props (headers config))))
  else config.

(** The request the handler hands to the HTTP client (lines 153-185). *)
Definition build_config (env : Env) (args : JsValue) : AxiosRequestConfig :=
  let normalizedEndpoint := normalize (string_of (get_prop args "endpoint")) in
  inject_auth env (attach_body args (initial_config args normalizedEndpoint)).

(** Lines 193-197. *)
Definition authMethod (env : Env) : string :=
  if truthy (hasBasicAuth env) then "basic"
  else if truthy (hasBearerAuth env) then "bearer"
  else if truthy (hasApiKeyAuth env) then "apikey"
  else "none".

(** Lines 203-224: the object given to [JSON.stringify] on a completed
    exchange. *)
Definition success_envelope (env : Env) (normalizedEndpoint : string)
  (config : AxiosRequestConfig) (response : AxiosResponse)
  (startTime endTime : Z) : JsValue :=
  let fullUrl := template (REST_BASE_URL env) ++ normalizedEndpoint in
  JObj [
    ("request", JObj [
       ("url", JStr fullUrl);
       ("method", method config);
       ("headers", headers config);
       ("body", data config);
       ("authMethod", JStr (authMethod env))]);
    ("response", JObj [
       ("statusCode", JNum (status response));
       ("statusText", JStr (statusText response));
       ("timing", JStr (Z_to_string (endTime - startTime) ++ "ms"));
       ("headers", JObj (response_headers response));
       ("body", response_data response)]);
    ("validation", JObj [
       ("isError", JBool (status response >=? 400));
       ("messages",
        if status response >=? 400
        then JArr [JStr ("Request failed with status "
                         ++ Z_to_string (status response))]
        else JArr [JStr "Request completed successfully"])])].

(** Lines 234-245: the object given to [JSON.stringify] when the client
    fails with an axios error. *)
Definition failure_envelope (env : Env) (normalizedEndpoint : string)
  (config : AxiosRequestConfig) (message : string) (code : option string)
  : JsValue :=
  JObj [
    ("error", JObj [
       ("message", JStr message);
       ("code", of_env code);
       ("request", JObj [
          ("url", JStr (template (REST_BASE_URL env) ++ normalizedEndpoint));
          ("method", method config);
          ("headers", headers config);
          ("body", data config)])])].

Definition call_tool (env : Env) (remote : Remote)
  (name : string) (arguments : JsValue) : M CallToolResult :=
  if negb (name =? "endpoint")%string then
    throw (McpError MethodNotFound ("Unknown tool: " ++ name))
  else if negb (isValidEndpointArgs arguments) then
    throw (McpError InvalidParams "Invalid test endpoint arguments")
  else
    let normalizedEndpoint :=
      normalize (string_of (get_prop arguments "endpoint")) in
    let config := build_config env arguments in
    try_catch
      (startTime <- Date_now ;;
       response <- axios_request remote config ;;
       endTime <- Date_now ;;
       ret {| content :=
                [ {| content_type := "text";
                     text := JSON_stringify
                               (success_envelope env normalizedEndpoint config
                                  response startTime endTime) |} ];
              isError := None |})
      (fun error =>
         match error with
         | AxiosError message code =>
             ret {| content :=
                      [ {| content_type := "text";
                           text := JSON_stringify
                                     (failure_envelope env normalizedEndpoint
                                        config message code) |} ];
                    isError := Some true |}
         | _ => throw error
         end).

(** ** Reading a result *)

(** The tree printed into the single text item of a result. *)
Definition envelope_of (result : CallToolResult) : JsValue :=
  match content result with
  | [item] => text item
  | _ => JUndefined
  end.

(** The names of the fields of a printed object. *)
Definition fields_of (v : JsValue) : list string :=
  match v with
  | JObj ps => obj_keys ps
  | _ => []
  end.

(** ** The data model in the words of the specification *)

(** "a flat string-keyed mapping" of string to string. *)
Definition is_string_map (v : JsValue) : bool :=
  match v with
  | JObj ps => forallb (fun p => (typeof (snd p) =? "string")%string) ps
  | _ => false
  end.

(** A credential slot is "present" when it holds a non-empty string. *)
Definition present (v : option string) : Prop :=
  exists s, v = Some s /\ s <> "".

(** A slot in which the empty string has been made absent. *)
Definition absent_if_empty (v : option string) : option string :=
  match v with
  | Some s => if (s =? "")%string then None else Some s
  | None => None
  end.

Definition without_empty_credentials (env : Env) : Env :=
  {| REST_BASE_URL := REST_BASE_URL env;
     AUTH_BASIC_USERNAME := absent_if_empty (AUTH_BASIC_USERNAME env);
     AUTH_BASIC_PASSWORD := absent_if_empty (AUTH_BASIC_PASSWORD env);
     AUTH_BEARER := absent_if_empty (AUTH_BEARER env);
     AUTH_APIKEY_HEADER_NAME := absent_if_empty (AUTH_APIKEY_HEADER_NAME env);
     AUTH_APIKEY_VALUE := absent_if_empty (AUTH_APIKEY_VALUE env) |}.

(** "authHeader() -> Optional<(name, value)>": the header of the active
    mode, the first of Basic, Bearer and ApiKey whose credentials are
    there. *)
Definition spec_authHeader (env : Env) : option (string * JsValue) :=
  match absent_if_empty (AUTH_BASIC_USERNAME env),
        absent_if_empty (AUTH_BASIC_PASSWORD env) with
  | Some username, Some password =>
      Some ("Authorization", JStr ("Basic " ++ base64 (username ++ ":" ++ password)))
  | _, _ =>
      match absent_if_empty (AUTH_BEARER env) with
      | Some token => Some ("Authorization", JStr ("Bearer " ++ token))
      | None =>
          match absent_if_empty (AUTH_APIKEY_HEADER_NAME env),
                absent_if_empty (AUTH_APIKEY_VALUE env) with
          | Some headerName, Some value => Some (headerName, JStr value)
          | _, _ => None
          end
      end
  end.

(** ** Concrete configurations, calls and remotes *)

Definition no_credentials : Env :=
  {| REST_BASE_URL := Some "https://api.example.com";
     AUTH_BASIC_USERNAME := None; AUTH_BASIC_PASSWORD := None;
     AUTH_BEARER := None;
     AUTH_APIKEY_HEADER_NAME := None; AUTH_APIKEY_VALUE := None |}.

Definition bearer_credentials : Env :=
  {| REST_BASE_URL := Some "https://api.example.com";
     AUTH_BASIC_USERNAME := None; AUTH_BASIC_PASSWORD := None;
     AUTH_BEARER := Some "s3cr3t";
     AUTH_APIKEY_HEADER_NAME := None; AUTH_APIKEY_VALUE := None |}.

Definition empty_bearer : Env :=
  {| REST_BASE_URL := Some "https://api.example.com";
     AUTH_BASIC_USERNAME := None; AUTH_BASIC_PASSWORD := None;
     AUTH_BEARER := Some "";
     AUTH_APIKEY_HEADER_NAME := None; AUTH_APIKEY_VALUE := None |}.

Definition get_users : JsValue :=
  JObj [("method", JStr "GET"); ("endpoint", JStr "/users/")].

Definition get_users_with_body : JsValue :=
  JObj [("method", JStr "GET"); ("endpoint", JStr "users");
        ("body", JObj [("name", JStr "John Doe")])].

Definition post_user : JsValue :=
  JObj [("method", JStr "POST"); ("endpoint", JStr "/users");
        ("body", JObj [("name", JStr "John Doe")]);
        ("headers", JObj [("Authorization", JStr "Bearer mine");
                          ("Accept-Language", JStr "en-US")])].

Definition get_with_numeric_header : JsValue :=
  JObj [("method", JStr "GET"); ("endpoint", JStr "/users");
        ("headers", JObj [("X-Count", JNum 1)])].

Definition get_with_text_headers : JsValue :=
  JObj [("method", JStr "GET"); ("endpoint", JStr "/users");
        ("headers", JStr "Accept: */*")].

Definition get_with_array_headers : JsValue :=
  JObj [("method", JStr "GET"); ("endpoint", JStr "/users");
        ("headers", JArr [JStr "Accept: */*"])].

Definition get_with_null_headers : JsValue :=
  JObj [("method", JStr "GET"); ("endpoint", JStr "/users");
        ("headers", JNull)].

Definition start_of_day : World := {| now := 1000; sent := [] |}.

(** A remote that answers every request after 12 ms with the given
    status and an empty JSON object. *)
Definition answers (code : Z) (reason : string) : Remote :=
  fun _ w =>
    (Fulfilled {| status := code; statusText := reason;
                  response_headers := [("content-type", JStr "application/json")];
                  response_data := JObj [] |},
     now w + 12).

(** A remote nobody listens at. *)
Definition unreachable : Remote :=
  fun _ w =>
    (Rejected (AxiosError "connect ECONNREFUSED 127.0.0.1:80" (Some "ECONNREFUSED")),
     now w + 3).

(** A remote that answers while the wall clock is set back by 5 ms. *)
Definition clock_set_back : Remote :=
  fun _ w =>
    (Fulfilled {| status := 200; statusText := "OK";
                  response_headers := []; response_data := JStr "" |},
     now w - 5).

(** Basic credentials, with a bearer token set as well. *)
Definition basic_and_bearer_credentials : Env :=
  {| REST_BASE_URL := Some "https://api.example.com";
     AUTH_BASIC_USERNAME := Some "Aladdin";
     AUTH_BASIC_PASSWORD := Some "open sesame";
     AUTH_BEARER := Some "s3cr3t";
     AUTH_APIKEY_HEADER_NAME := None; AUTH_APIKEY_VALUE := None |}.

(** ** Module load (index.ts, lines 12-14) *)

(** Loading the module: it throws an [Error], here the value carrying its
    message, when [REST_BASE_URL] is unset or empty. *)
Definition module_load (env : Env) : Outcome unit :=
  if base_url_missing env
  then Thrown (OtherError (JStr "REST_BASE_URL environment variable is required"))
  else Returned tt.

(** ** The tool listing (index.ts, lines 72-136) *)

Definition line_feed : string := String (ascii_of_nat 10) EmptyString.
Definition double_quote : string := String (ascii_of_nat 34) EmptyString.

(** Lines 80-88: the nested conditional inside the description. *)
Definition authentication_summary (env : Env) : string :=
  if truthy (hasBasicAuth env) then
    "Basic Auth with username: " ++ template (AUTH_BASIC_USERNAME env)
  else if truthy (hasBearerAuth env) then
    "Bearer token authentication configured"
  else if truthy (hasApiKeyAuth env) then
    "API Key using header: " ++ template (AUTH_APIKEY_HEADER_NAME env)
  else "No authentication configured".

(** Lines 76-107: the template literal, line by line. *)
Definition endpoint_description (env : Env) : string :=
  String.concat line_feed [
    "Test a REST API endpoint and get detailed response information. ";
    "";
    "Base URL: " ++ template (REST_BASE_URL env);
    "";
    "Authentication: " ++ authentication_summary env;
    "";
    "The tool automatically:";
    "- Normalizes endpoints (adds leading slash, removes trailing slashes)";
    "- Handles authentication header injection";
    "- Accepts any HTTP status code as valid";
    "- Returns detailed response information including:";
    "  * Full URL called";
    "  * Status code and text";
    "  * Response headers";
    "  * Response body";
    "  * Request details (method, headers, body)";
    "  * Response timing";
    "  * Validation messages";
    "";
    "Error Handling:";
    "- Network errors are caught and returned with descriptive messages";
    "- Invalid status codes are still returned with full response details";
    "- Authentication errors include the attempted auth method";
    "" ].

(** Lines 108-133. *)
Definition endpoint_inputSchema : JsValue :=
  JObj [
    ("type", JStr "object");
    ("properties", JObj [
       ("method", JObj [
          ("type", JStr "string");
          ("enum", JArr [JStr "GET"; JStr "POST"; JStr "PUT"; JStr "DELETE"]);
          ("description", JStr "HTTP method to use")]);
       ("endpoint", JObj [
          ("type", JStr "string");
          ("description",
           JStr ("Endpoint path (e.g. " ++ double_quote ++ "/users" ++ double_quote
                 ++ "). Will be appended to base URL."))]);
       ("body", JObj [
          ("type", JStr "object");
          ("description", JStr "Optional request body for POST/PUT requests")]);
       ("headers", JObj [
          ("type", JStr "object");
          ("description", JStr "Optional request headers");
          ("additionalProperties", JObj [("type", JStr "string")])])]);
    ("required", JArr [JStr "method"; JStr "endpoint"])].

Record Tool : Type := {
  tool_name : string;
  tool_description : string;
  tool_inputSchema : JsValue
}.

Record ListToolsResult : Type := {
  tools : list Tool
}.

Definition list_tools (env : Env) : M ListToolsResult :=
  ret {| tools :=
           [ {| tool_name := "endpoint";
                tool_description := endpoint_description env;
                tool_inputSchema := endpoint_inputSchema |} ] |}.

(** The elements of an array value. *)
Definition elements (v : JsValue) : list JsValue :=
  match v with
  | JArr xs => xs
  | _ => []
  end.

(** ** Reading base64 back

    The code only encodes; the decoder of RFC 4648 is what the receiving
    server applies, and states what the encoding carries. *)

Fixpoint index_of (c : ascii) (s : string) (i : N) : option N :=
  match s with
  | EmptyString => None
  | String d r => if Ascii.eqb d c then Some i else index_of c r (N.succ i)
  end.

Definition base64_value (c : ascii) : option N := index_of c base64_alphabet 0%N.

Definition is_pad (c : ascii) : bool := Ascii.eqb c "="%char.

Fixpoint base64_decode (s : string) : option string :=
  match s with
  | EmptyString => Some EmptyString
  | String a (String b (String c (String d r))) =>
      match base64_value a, base64_value b with
      | Some x, Some y =>
          match base64_value c, base64_value d with
          | Some z, Some t =>
              match base64_decode r with
              | Some rest =>
                  Some (String (ascii_of_N (x * 4 + y / 16))
                          (String (ascii_of_N ((y mod 16) * 16 + z / 4))
                             (String (ascii_of_N ((z mod 4) * 64 + t)) rest)))
              | None => None
              end
          | Some z, None =>
              if is_pad d && (r =? "")%string
              then Some (String (ascii_of_N (x * 4 + y / 16))
                           (String (ascii_of_N ((y mod 16) * 16 + z / 4))
                              EmptyString))
              else None
          | None, _ =>
              if is_pad c && is_pad d && (r =? "")%string
              then Some (String (ascii_of_N (x * 4 + y / 16)) EmptyString)
              else None
          end
      | _, _ => None
      end
  | _ => None
  end%N.

(** ** Reading a printed tree *)

(** No undefined anywhere in the value: what a JSON text can hold. *)
Fixpoint defined_throughout (v : JsValue) : bool :=
  match v with
  | JUndefined => false
  | JArr xs => forallb defined_throughout xs
  | JObj ps =>
      (fix all (ps : Props) : bool :=
         match ps with
         | [] => true
         | (_, x) :: r => defined_throughout x && all r
         end) ps
  | _ => true
  end.

(** ** Reading strings *)

Definition starts_with_slash (s : string) : Prop :=
  exists u, s = String slash u.

Definition ends_with_slash (s : string) : Prop :=
  exists u, s = u ++ String slash EmptyString.

(** ** Normalisation *)

Example normalize_bare : normalize "users" = "/users".
Proof. reflexivity. Qed.

Example normalize_only_slashes : normalize "///" = "/".
Proof. reflexivity. Qed.

Example normalize_inner_slashes_kept : normalize "/a//b/" = "/a//b".
Proof. reflexivity. Qed.

Lemma drop_leading_slashes_head (s : string) :
  drop_leading_slashes s = EmptyString \/
  exists c r, drop_leading_slashes s = String c r /\ Ascii.eqb c slash = false.
Proof.
  induction s as [|c r IH]; simpl.
  - now left.
  - destruct (Ascii.eqb c slash) eqn:E.
    + exact IH.
    + right. now exists c, r.
Qed.

Lemma all_slashes_drop_trailing (s : string) :
  all_slashes s = false -> all_slashes (drop_trailing_slashes s) = false.
Proof.
  induction s as [|c r IH]; intros H.
  - discriminate H.
  - cbn [drop_trailing_slashes]. rewrite H.
    cbn [all_slashes] in *.
    destruct (Ascii.eqb c slash); [|reflexivity].
    cbn [andb] in *. now apply IH.
Qed.

Lemma drop_trailing_slashes_idem (s : string) :
  drop_trailing_slashes (drop_trailing_slashes s) = drop_trailing_slashes s.
Proof.
  induction s as [|c r IH]; [reflexivity|].
  cbn [drop_trailing_slashes].
  destruct (all_slashes (String c r)) eqn:E; [reflexivity|].
  pose proof (all_slashes_drop_trailing _ E) as E'.
  cbn [drop_trailing_slashes] in E'. rewrite E in E'.
  cbn [drop_trailing_slashes]. rewrite E'. now rewrite IH.
Qed.

Lemma drop_leading_after_trailing (s : string) :
  (s = EmptyString \/ exists c r, s = String c r /\ Ascii.eqb c slash = false) ->
  drop_leading_slashes (drop_trailing_slashes s) = drop_trailing_slashes s.
Proof.
  intros [->|(c & r & -> & Hc)]; [reflexivity|].
  cbn [drop_trailing_slashes all_slashes]. rewrite Hc. cbn [andb].
  cbn [drop_leading_slashes]. now rewrite Hc.
Qed.

Lemma strip_slashes_normalize (s : string) :
  strip_slashes (normalize s) = strip_slashes s.
Proof.
  unfold normalize, strip_slashes.
  cbn [drop_leading_slashes]. unfold slash at 1. rewrite Ascii.eqb_refl.
  rewrite drop_leading_after_trailing by apply drop_leading_slashes_head.
  apply drop_trailing_slashes_idem.
Qed.

(** C6: normalising an endpoint twice gives what normalising it once
    gives, for every endpoint string; and "/users/", "users" and
    "///a/b///" normalise to "/users", "/users" and "/a/b". *)
Theorem normalize_idempotent :
  (forall s : string, normalize (normalize s) = normalize s) /\
  normalize "/users/" = "/users" /\
  normalize "users" = "/users" /\
  normalize "///a/b///" = "/a/b".
Proof.
  split; [|repeat split].
  intros s. unfold normalize at 1 3. now rewrite strip_slashes_normalize.
Qed.

(** ** Credentials and the active mode *)

Example base64_credentials :
  base64 "Aladdin:open sesame" = "QWxhZGRpbjpvcGVuIHNlc2FtZQ=="
  /\ base64 "a" = "YQ==" /\ base64 "ab" = "YWI=" /\ base64 "abc" = "YWJj".
Proof. repeat split. Qed.

Example basic_wins_over_bearer :
  let env :=
    {| REST_BASE_URL := Some "https://api.example.com";
       AUTH_BASIC_USERNAME := Some "Aladdin";
       AUTH_BASIC_PASSWORD := Some "open sesame";
       AUTH_BEARER := Some "s3cr3t";
       AUTH_APIKEY_HEADER_NAME := Some "X-API-Key";
       AUTH_APIKEY_VALUE := Some "k" |} in
  authMethod env = "basic" /\
  headers (build_config env get_users)
  = JObj [("Authorization", JStr "Basic QWxhZGRpbjpvcGVuIHNlc2FtZQ==")].
Proof. split; reflexivity. Qed.

Lemma truthy_of_env (v : option string) :
  truthy (of_env v) =
  match absent_if_empty v with Some _ => true | None => false end.
Proof.
  destruct v as [s|]; [|reflexivity].
  simpl. now destruct (s =? "")%string.
Qed.

Lemma absent_if_empty_Some (v : option string) (s : string) :
  absent_if_empty v = Some s -> v = Some s.
Proof.
  destruct v as [x|]; [|discriminate]. simpl.
  destruct (x =? "")%string; [discriminate|]. now intros [= ->].
Qed.

Lemma present_iff (v : option string) :
  present v <-> exists s, absent_if_empty v = Some s.
Proof.
  unfold present. split.
  - intros (s & -> & Hs). exists s. simpl.
    apply String.eqb_neq in Hs. now rewrite Hs.
  - intros (s & H). exists s. split; [now apply absent_if_empty_Some|].
    destruct v as [x|]; [|discriminate]. simpl in H.
    destruct (String.eqb_spec x ""); [discriminate|]. now injection H as <-.
Qed.

Lemma not_present_iff (v : option string) :
  ~ present v <-> absent_if_empty v = None.
Proof.
  rewrite present_iff. destruct (absent_if_empty v) as [s|].
  - split; [intros H; exfalso; apply H; now exists s | discriminate].
  - split; [reflexivity | intros _ (s & H); discriminate].
Qed.

Lemma truthy_hasBasicAuth (env : Env) :
  truthy (hasBasicAuth env) =
  match absent_if_empty (AUTH_BASIC_USERNAME env),
        absent_if_empty (AUTH_BASIC_PASSWORD env) with
  | Some _, Some _ => true
  | _, _ => false
  end.
Proof.
  unfold hasBasicAuth, js_and.
  rewrite (truthy_of_env (AUTH_BASIC_USERNAME env)).
  destruct (absent_if_empty (AUTH_BASIC_USERNAME env)) eqn:U.
  - apply truthy_of_env.
  - rewrite truthy_of_env, U. reflexivity.
Qed.

Lemma truthy_hasBearerAuth (env : Env) :
  truthy (hasBearerAuth env) =
  match absent_if_empty (AUTH_BEARER env) with Some _ => true | None => false end.
Proof.
  unfold hasBearerAuth. cbn [truthy]. rewrite negb_involutive.
  apply truthy_of_env.
Qed.

Lemma truthy_hasApiKeyAuth (env : Env) :
  truthy (hasApiKeyAuth env) =
  match absent_if_empty (AUTH_APIKEY_HEADER_NAME env),
        absent_if_empty (AUTH_APIKEY_VALUE env) with
  | Some _, Some _ => true
  | _, _ => false
  end.
Proof.
  unfold hasApiKeyAuth, js_and.
  rewrite (truthy_of_env (AUTH_APIKEY_HEADER_NAME env)).
  destruct (absent_if_empty (AUTH_APIKEY_HEADER_NAME env)) eqn:U.
  - apply truthy_of_env.
  - rewrite truthy_of_env, U. reflexivity.
Qed.

(** The header the injection chain overlays is the one the specification
    names for the configuration. *)
Lemma inject_auth_spec (env : Env) (config : AxiosRequestConfig) :
  inject_auth env config =
  match spec_authHeader env with
  | Some (name, value) =>
      set_headers config (JObj (obj_set name value (own_props (headers config))))
  | None => config
  end.
Proof.
  unfold inject_auth, spec_authHeader.
  rewrite truthy_hasBasicAuth, truthy_hasBearerAuth, truthy_hasApiKeyAuth.
  destruct (absent_if_empty (AUTH_BASIC_USERNAME env)) as [u|] eqn:U;
    destruct (absent_if_empty (AUTH_BASIC_PASSWORD env)) as [p|] eqn:P;
    destruct (absent_if_empty (AUTH_BEARER env)) as [b|] eqn:B;
    destruct (absent_if_empty (AUTH_APIKEY_HEADER_NAME env)) as [n|] eqn:N;
    destruct (absent_if_empty (AUTH_APIKEY_VALUE env)) as [v|] eqn:V;
    repeat match goal with
      | H : absent_if_empty _ = Some _ |- _ =>
          apply absent_if_empty_Some in H; rewrite H
      end;
    reflexivity.
Qed.

Lemma present_cases (v : option string) :
  (present v /\ exists s, absent_if_empty v = Some s) \/
  (~ present v /\ absent_if_empty v = None).
Proof.
  destruct (absent_if_empty v) as [s|] eqn:E.
  - left. split; [apply present_iff|]; now exists s.
  - right. split; [now apply not_present_iff | reflexivity].
Qed.

Lemma authMethod_cases (env : Env) :
  authMethod env =
  match absent_if_empty (AUTH_BASIC_USERNAME env),
        absent_if_empty (AUTH_BASIC_PASSWORD env) with
  | Some _, Some _ => "basic"
  | _, _ =>
      match absent_if_empty (AUTH_BEARER env) with
      | Some _ => "bearer"
      | None =>
          match absent_if_empty (AUTH_APIKEY_HEADER_NAME env),
                absent_if_empty (AUTH_APIKEY_VALUE env) with
          | Some _, Some _ => "apikey"
          | _, _ => "none"
          end
      end
  end.
Proof.
  unfold authMethod.
  rewrite truthy_hasBasicAuth, truthy_hasBearerAuth, truthy_hasApiKeyAuth.
  destruct (absent_if_empty (AUTH_BASIC_USERNAME env));
    destruct (absent_if_empty (AUTH_BASIC_PASSWORD env));
    destruct (absent_if_empty (AUTH_BEARER env));
    destruct (absent_if_empty (AUTH_APIKEY_HEADER_NAME env));
    destruct (absent_if_empty (AUTH_APIKEY_VALUE env)); reflexivity.
Qed.

(** C4: for every setting of the credential variables one mode is
    active, the first of Basic, Bearer and ApiKey whose credentials are
    present, and None when none is; Basic needs both the username and the
    password, ApiKey both the header name and the value, and a pair with
    one half missing does not activate its mode.  The header injected
    into the request is the one of the mode so chosen. *)
Theorem auth_mode_precedence (env : Env) :
  let basic :=
    present (AUTH_BASIC_USERNAME env) /\ present (AUTH_BASIC_PASSWORD env) in
  let bearer := present (AUTH_BEARER env) in
  let apikey :=
    present (AUTH_APIKEY_HEADER_NAME env) /\ present (AUTH_APIKEY_VALUE env) in
  In (authMethod env) ["basic"; "bearer"; "apikey"; "none"] /\
  (authMethod env = "basic" <-> basic) /\
  (authMethod env = "bearer" <-> ~ basic /\ bearer) /\
  (authMethod env = "apikey" <-> ~ basic /\ ~ bearer /\ apikey) /\
  (authMethod env = "none" <-> ~ basic /\ ~ bearer /\ ~ apikey) /\
  (AUTH_BASIC_USERNAME env = None \/ AUTH_BASIC_PASSWORD env = None ->
   authMethod env <> "basic") /\
  (AUTH_APIKEY_HEADER_NAME env = None \/ AUTH_APIKEY_VALUE env = None ->
   authMethod env <> "apikey") /\
  (forall config : AxiosRequestConfig,
     inject_auth env config =
     if (authMethod env =? "basic")%string then
       set_headers config
         (JObj (obj_set "Authorization"
                  (JStr ("Basic " ++ base64 (template (AUTH_BASIC_USERNAME env)
                                             ++ ":"
                                             ++ template (AUTH_BASIC_PASSWORD env))))
                  (own_props (headers config))))
     else if (authMethod env =? "bearer")%string then
       set_headers config
         (JObj (obj_set "Authorization"
                  (JStr ("Bearer " ++ template (AUTH_BEARER env)))
                  (own_props (headers config))))
     else if (authMethod env =? "apikey")%string then
       set_headers config
         (JObj (obj_set (template (AUTH_APIKEY_HEADER_NAME env))
                  (of_env (AUTH_APIKEY_VALUE env))
                  (own_props (headers config))))
     else config).
Proof.
  cbv zeta.
  assert (Hpartial :
    forall a b : option string, a = None \/ b = None -> ~ (present a /\ present b)).
  { intros a b [->| ->] [(s & H & _) (s' & H' & _)]; discriminate. }
  assert (Hiffs :
    In (authMethod env) ["basic"; "bearer"; "apikey"; "none"] /\
    (authMethod env = "basic" <->
     present (AUTH_BASIC_USERNAME env) /\ present (AUTH_BASIC_PASSWORD env)) /\
    (authMethod env = "bearer" <->
     ~ (present (AUTH_BASIC_USERNAME env) /\ present (AUTH_BASIC_PASSWORD env)) /\
     present (AUTH_BEARER env)) /\
    (authMethod env = "apikey" <->
     ~ (present (AUTH_BASIC_USERNAME env) /\ present (AUTH_BASIC_PASSWORD env)) /\
     ~ present (AUTH_BEARER env) /\
     present (AUTH_APIKEY_HEADER_NAME env) /\ present (AUTH_APIKEY_VALUE env)) /\
    (authMethod env = "none" <->
     ~ (present (AUTH_BASIC_USERNAME env) /\ present (AUTH_BASIC_PASSWORD env)) /\
     ~ present (AUTH_BEARER env) /\
     ~ (present (AUTH_APIKEY_HEADER_NAME env) /\ present (AUTH_APIKEY_VALUE env)))).
  { rewrite authMethod_cases.
    destruct (present_cases (AUTH_BASIC_USERNAME env)) as [[U (u & Eu)]|[U Eu]];
      destruct (present_cases (AUTH_BASIC_PASSWORD env)) as [[P (p & Ep)]|[P Ep]];
      destruct (present_cases (AUTH_BEARER env)) as [[B (b & Eb)]|[B Eb]];
      destruct (present_cases (AUTH_APIKEY_HEADER_NAME env)) as [[N (n & En)]|[N En]];
      destruct (present_cases (AUTH_APIKEY_VALUE env)) as [[V (v & Ev)]|[V Ev]];
      rewrite ?Eu, ?Ep, ?Eb, ?En, ?Ev;
      cbn [In];
      (split; [tauto|]);
      repeat split; intros; try discriminate; tauto. }
  destruct Hiffs as (Hin & Hbasic & Hbearer & Hapikey & Hnone).
  repeat split; try tauto.
  - intros H E. apply Hbasic in E. exact (Hpartial _ _ H E).
  - intros H E. apply Hapikey in E. apply (Hpartial _ _ H). tauto.
  - intros config. unfold inject_auth, authMethod.
    destruct (truthy (hasBasicAuth env)); [reflexivity|].
    destruct (truthy (hasBearerAuth env)); [reflexivity|].
    destruct (truthy (hasApiKeyAuth env)); reflexivity.
Qed.

Lemma absent_if_empty_idem (v : option string) :
  absent_if_empty (absent_if_empty v) = absent_if_empty v.
Proof.
  destruct v as [s|]; [|reflexivity]. simpl.
  destruct (s =? "")%string eqn:E; [reflexivity|]. simpl. now rewrite E.
Qed.

Lemma spec_authHeader_without_empty (env : Env) :
  spec_authHeader (without_empty_credentials env) = spec_authHeader env.
Proof.
  unfold spec_authHeader, without_empty_credentials; simpl.
  now rewrite !absent_if_empty_idem.
Qed.

(** C10: a credential variable set to the empty string counts as absent:
    the mode and the injected header are those of the configuration in
    which such variables are unset.  With only AUTH_BEARER set, to the
    empty string, the mode is None and the request headers are left as
    they are, so no Authorization header is injected; with a username and
    an empty password, Basic is not active. *)
Theorem empty_credential_is_absent :
  (forall env : Env,
     authMethod env = authMethod (without_empty_credentials env) /\
     forall config : AxiosRequestConfig,
       inject_auth env config = inject_auth (without_empty_credentials env) config) /\
  (authMethod empty_bearer = "none" /\
   (forall config : AxiosRequestConfig, inject_auth empty_bearer config = config) /\
   headers (build_config empty_bearer get_users) = JObj []) /\
  (forall (env : Env) (username : string),
     AUTH_BASIC_USERNAME env = Some username ->
     AUTH_BASIC_PASSWORD env = Some "" ->
     truthy (hasBasicAuth env) = false /\ authMethod env <> "basic").
Proof.
  split; [|split].
  - intros env. split.
    + rewrite !authMethod_cases. unfold without_empty_credentials; simpl.
      now rewrite !absent_if_empty_idem.
    + intros config.
      now rewrite !inject_auth_spec, spec_authHeader_without_empty.
  - repeat split.
  - intros env username U P.
    assert (H : truthy (hasBasicAuth env) = false).
    { rewrite truthy_hasBasicAuth, P. simpl.
      now destruct (absent_if_empty (AUTH_BASIC_USERNAME env)). }
    split; [exact H|].
    unfold authMethod. rewrite H.
    destruct (truthy (hasBearerAuth env)); [discriminate|].
    destruct (truthy (hasApiKeyAuth env)); discriminate.
Qed.

(** ** The argument guard *)

Lemma strict_eq_JStr (s : string) (v : JsValue) :
  strict_eq (JStr s) v = true <-> v = JStr s.
Proof.
  destruct v; simpl; split; try discriminate.
  - intros H. apply String.eqb_eq in H. now subst.
  - intros [= ->]. apply String.eqb_refl.
Qed.

Lemma includes_strings (names : list string) (v : JsValue) :
  includes (map JStr names) v = true <-> exists s, In s names /\ v = JStr s.
Proof.
  unfold includes. rewrite existsb_exists. split.
  - intros (x & Hx & E). apply in_map_iff in Hx as (s & <- & Hs).
    apply strict_eq_JStr in E. now exists s.
  - intros (s & Hs & ->). exists (JStr s). split.
    + now apply in_map.
    + now apply strict_eq_JStr.
Qed.

Lemma typeof_string (v : JsValue) :
  (typeof v =? "string")%string = true <-> exists s, v = JStr s.
Proof.
  destruct v; simpl; split; try discriminate; try (intros (s' & [=])).
  - intros _. now exists s.
  - reflexivity.
Qed.

Lemma typeof_object (v : JsValue) :
  (typeof v =? "object")%string = true <->
  v = JNull \/ (exists xs, v = JArr xs) \/ (exists ps, v = JObj ps).
Proof.
  destruct v; simpl; split; try discriminate; try tauto;
    try (intros [[=]|[(x & [=])|(x & [=])]]; fail).
  - intros _. right. left. now exists items.
  - intros _. right. right. now exists props.
Qed.

(** What the guard lets through. *)
Lemma isValidEndpointArgs_true (args : JsValue) :
  isValidEndpointArgs args = true <->
  (exists ps, args = JObj ps) /\
  (exists m, In m ["GET"; "POST"; "PUT"; "DELETE"] /\ get_prop args "method" = JStr m) /\
  (exists s, get_prop args "endpoint" = JStr s) /\
  (get_prop args "headers" = JUndefined \/
   (typeof (get_prop args "headers") =? "object")%string = true).
Proof.
  unfold isValidEndpointArgs.
  change [JStr "GET"; JStr "POST"; JStr "PUT"; JStr "DELETE"]
    with (map JStr ["GET"; "POST"; "PUT"; "DELETE"]).
  split.
  - intros H.
    (* a primitive fails the first test; an array has no [method] *)
    destruct args; try (cbn in H; discriminate H).
    cbn [typeof String.eqb Ascii.eqb Bool.eqb negb orb strict_eq] in H.
    destruct (includes _ (get_prop (JObj props) "method")) eqn:Hm;
      [|discriminate H].
    destruct (typeof (get_prop (JObj props) "endpoint") =? "string")%string eqn:He;
      [|discriminate H].
    cbn [negb] in H.
    split; [now exists props|].
    split; [now apply includes_strings|].
    split; [now apply typeof_string|].
    destruct (get_prop (JObj props) "headers") eqn:Hh; try discriminate H;
      try (now left); now right.
  - intros ((ps & ->) & Hm & He & Hh).
    apply includes_strings in Hm. apply typeof_string in He.
    cbn [typeof String.eqb Ascii.eqb Bool.eqb negb orb strict_eq].
    rewrite Hm, He. cbn [negb].
    destruct Hh as [-> | ->]; [reflexivity|].
    cbn [negb]. now rewrite andb_false_r.
Qed.

(** ** Running the handler *)

(** A call that passes both guards hands exactly one request, the one
    [build_config] makes, to the HTTP client, and nothing else. *)
Lemma call_tool_valid (env : Env) (remote : Remote) (args : JsValue) (w : World) :
  isValidEndpointArgs args = true ->
  call_tool env remote "endpoint" args w =
  let config := build_config env args in
  let normalizedEndpoint := normalize (string_of (get_prop args "endpoint")) in
  let w' := {| now := snd (remote config w); sent := (sent w ++ [config])%list |} in
  match fst (remote config w) with
  | Fulfilled response =>
      (Returned
         {| content :=
              [ {| content_type := "text";
                   text := JSON_stringify
                             (success_envelope env normalizedEndpoint config
                                response (now w) (snd (remote config w))) |} ];
            isError := None |}, w')
  | Rejected (AxiosError message code) =>
      (Returned
         {| content :=
              [ {| content_type := "text";
                   text := JSON_stringify
                             (failure_envelope env normalizedEndpoint config
                                message code) |} ];
            isError := Some true |}, w')
  | Rejected error => (Thrown error, w')
  end.
Proof.
  intros Hvalid. unfold call_tool.
  rewrite String.eqb_refl, Hvalid. cbn [negb].
  unfold try_catch, bind, Date_now, axios_request, ret, throw.
  destruct (remote (build_config env args) w) as [[response|error] t];
    cbn [fst snd]; [reflexivity|].
  destruct error; reflexivity.
Qed.

(** A call stopped by a guard throws and leaves the world as it was. *)
Lemma call_tool_unknown_tool (env : Env) (remote : Remote) (name : string)
  (args : JsValue) (w : World) :
  name <> "endpoint" ->
  call_tool env remote name args w =
  (Thrown (McpError MethodNotFound ("Unknown tool: " ++ name)), w).
Proof.
  intros H. unfold call_tool. apply String.eqb_neq in H. now rewrite H.
Qed.

Lemma call_tool_invalid_args (env : Env) (remote : Remote) (args : JsValue)
  (w : World) :
  isValidEndpointArgs args = false ->
  call_tool env remote "endpoint" args w =
  (Thrown (McpError InvalidParams "Invalid test endpoint arguments"), w).
Proof.
  intros H. unfold call_tool. now rewrite String.eqb_refl, H.
Qed.

Example patch_is_rejected :
  call_tool no_credentials (answers 200 "OK") "endpoint"
    (JObj [("method", JStr "PATCH"); ("endpoint", JStr "/users")]) start_of_day
  = (Thrown (McpError InvalidParams "Invalid test endpoint arguments"), start_of_day).
Proof. reflexivity. Qed.

Example unknown_tool_is_rejected :
  call_tool no_credentials (answers 200 "OK") "fetch" get_users start_of_day
  = (Thrown (McpError MethodNotFound "Unknown tool: fetch"), start_of_day).
Proof. reflexivity. Qed.

(** C8: a call naming another tool than [endpoint] is rejected with
    MethodNotFound; a call of [endpoint] whose arguments are not an object,
    whose method is none of GET, POST, PUT and DELETE, or whose endpoint is
    not a string is rejected with InvalidParams; either way the handler
    throws with the world untouched, so nothing has been handed to the HTTP
    client. *)
Theorem malformed_call_rejected (env : Env) (remote : Remote) (name : string)
  (args : JsValue) (w : World) :
  (name <> "endpoint" ->
   call_tool env remote name args w =
   (Thrown (McpError MethodNotFound ("Unknown tool: " ++ name)), w)) /\
  (typeof args <> "object" \/ args = JNull \/ (exists xs, args = JArr xs) \/
   ~ In (get_prop args "method") [JStr "GET"; JStr "POST"; JStr "PUT"; JStr "DELETE"] \/
   typeof (get_prop args "endpoint") <> "string" ->
   (name = "endpoint" ->
    call_tool env remote name args w =
    (Thrown (McpError InvalidParams "Invalid test endpoint arguments"), w)) /\
   exists code message,
     call_tool env remote name args w = (Thrown (McpError code message), w)).
Proof.
  split; [apply call_tool_unknown_tool|].
  intros Hbad.
  assert (Hinvalid : isValidEndpointArgs args = false).
  { destruct (isValidEndpointArgs args) eqn:E; [exfalso|reflexivity].
    apply isValidEndpointArgs_true in E
      as ((ps & ->) & (m & Hm & Em) & (s & Es) & _).
    destruct Hbad as [H|[H|[(xs & H)|[H|H]]]]; try discriminate H.
    - now apply H.
    - apply H. rewrite Em.
      change [JStr "GET"; JStr "POST"; JStr "PUT"; JStr "DELETE"]
        with (map JStr ["GET"; "POST"; "PUT"; "DELETE"]).
      now apply in_map.
    - apply H. now rewrite Es. }
  split.
  - intros ->. now apply call_tool_invalid_args.
  - destruct (String.eqb_spec name "endpoint") as [->|Hname].
    + eexists _, _. now apply call_tool_invalid_args.
    + eexists _, _. now apply call_tool_unknown_tool.
Qed.

(** ** Headers that are not a string map *)

(** What the guard does reject: a call whose [headers] is present and is
    not of type object (a string, a number, a boolean) is rejected with
    InvalidParams, the world untouched. *)
Theorem non_object_headers_rejected (env : Env) (remote : Remote)
  (args : JsValue) (w : World) :
  get_prop args "headers" <> JUndefined ->
  typeof (get_prop args "headers") <> "object" ->
  call_tool env remote "endpoint" args w =
  (Thrown (McpError InvalidParams "Invalid test endpoint arguments"), w).
Proof.
  intros Hpresent Htype. apply call_tool_invalid_args.
  destruct (isValidEndpointArgs args) eqn:E; [exfalso|reflexivity].
  apply isValidEndpointArgs_true in E as (_ & _ & _ & [H|H]).
  - now apply Hpresent.
  - apply Htype. now apply String.eqb_eq.
Qed.

Lemma non_object_headers_rejected_witness :
  get_prop get_with_text_headers "headers" <> JUndefined /\
  typeof (get_prop get_with_text_headers "headers") <> "object" /\
  call_tool no_credentials (answers 200 "OK") "endpoint" get_with_text_headers
    start_of_day
  = (Thrown (McpError InvalidParams "Invalid test endpoint arguments"), start_of_day).
Proof.
  split; [discriminate|]. split; [discriminate|].
  apply (non_object_headers_rejected no_credentials (answers 200 "OK")
           get_with_text_headers start_of_day); discriminate.
Defined.

(** Headers mapping a name to a number are not a string map, and the
    call goes through to the HTTP client with them. *)
Lemma numeric_header_value_accepted :
  get_prop get_with_numeric_header "headers" = JObj [("X-Count", JNum 1)] /\
  is_string_map (get_prop get_with_numeric_header "headers") = false /\
  isValidEndpointArgs get_with_numeric_header = true /\
  exists result,
    call_tool no_credentials (answers 200 "OK") "endpoint"
      get_with_numeric_header start_of_day
    = (Returned result,
       {| now := 1012;
          sent := [ {| method := JStr "GET"; url := "/users";
                       headers := JObj [("X-Count", JNum 1)];
                       data := JUndefined |} ] |}).
Proof.
  repeat split. eexists. vm_compute. reflexivity.
Qed.

(** C3: the code at the inputs the claim names.  Headers that are
    present and are not a flat map of strings to strings should be rejected
    with InvalidParams before any network access, as the interface of line
    25, the type predicate of line 28 and the listed input schema say of
    them; but line 32 tests only [typeof args.headers !== 'object'], so a
    map with a number in it, an array and null all pass the guard, and the
    request is handed to the HTTP client: with the number, with the array
    itself as its headers, and with no headers for null. *)
Theorem headers_outside_string_map_accepted :
  let rejected :=
    (Thrown (McpError InvalidParams "Invalid test endpoint arguments"),
     start_of_day) in
  let run := call_tool no_credentials (answers 200 "OK") "endpoint" in
  let request (h : JsValue) :=
    {| method := JStr "GET"; url := "/users"; headers := h; data := JUndefined |} in
  (get_prop get_with_numeric_header "headers" = JObj [("X-Count", JNum 1)] /\
   is_string_map (get_prop get_with_numeric_header "headers") = false /\
   isValidEndpointArgs get_with_numeric_header = true /\
   run get_with_numeric_header start_of_day <> rejected /\
   sent (snd (run get_with_numeric_header start_of_day))
   = [request (JObj [("X-Count", JNum 1)])]) /\
  (get_prop get_with_array_headers "headers" = JArr [JStr "Accept: */*"] /\
   is_string_map (get_prop get_with_array_headers "headers") = false /\
   isValidEndpointArgs get_with_array_headers = true /\
   run get_with_array_headers start_of_day <> rejected /\
   sent (snd (run get_with_array_headers start_of_day))
   = [request (JArr [JStr "Accept: */*"])]) /\
  (get_prop get_with_null_headers "headers" = JNull /\
   is_string_map (get_prop get_with_null_headers "headers") = false /\
   isValidEndpointArgs get_with_null_headers = true /\
   run get_with_null_headers start_of_day <> rejected /\
   sent (snd (run get_with_null_headers start_of_day)) = [request (JObj [])]).
Proof.
  cbv zeta. repeat split; try reflexivity; vm_compute; discriminate.
Qed.

(** ** Objects: defining a property *)

Lemma obj_lookup_replace_same (k : string) (v : JsValue) (ps : Props) :
  obj_has k ps = true -> obj_lookup k (obj_replace k v ps) = Some v.
Proof.
  unfold obj_has. induction ps as [|[k' v'] r IH]; simpl; [discriminate|].
  destruct (k' =? k)%string eqn:E; simpl.
  - now rewrite String.eqb_refl.
  - now rewrite E.
Qed.

Lemma obj_lookup_replace_other (k k' : string) (v : JsValue) (ps : Props) :
  k' <> k -> obj_lookup k' (obj_replace k v ps) = obj_lookup k' ps.
Proof.
  intros Hne. induction ps as [|[k0 v0] r IH]; simpl; [reflexivity|].
  destruct (String.eqb_spec k0 k) as [->|H0]; simpl.
  - apply not_eq_sym, String.eqb_neq in Hne. now rewrite Hne.
  - now rewrite IH.
Qed.

Lemma obj_keys_replace (k : string) (v : JsValue) (ps : Props) :
  obj_keys (obj_replace k v ps) = obj_keys ps.
Proof.
  unfold obj_keys. induction ps as [|[k0 v0] r IH]; simpl; [reflexivity|].
  destruct (String.eqb_spec k0 k) as [->|H0]; simpl; [reflexivity|].
  now rewrite IH.
Qed.

Lemma obj_lookup_insert_index_same (n : N) (k : string) (v : JsValue) (ps : Props) :
  obj_lookup k ps = None -> obj_lookup k (obj_insert_index n k v ps) = Some v.
Proof.
  induction ps as [|[k' v'] r IH]; simpl.
  - now rewrite String.eqb_refl.
  - destruct (k' =? k)%string eqn:E; [discriminate|]. intros Hr.
    destruct (array_index k') as [m|]; [destruct (m <? n)%N|]; simpl;
      rewrite ?E, ?String.eqb_refl; auto.
Qed.

Lemma obj_lookup_insert_index_other (n : N) (k k' : string) (v : JsValue)
  (ps : Props) :
  k' <> k -> obj_lookup k' (obj_insert_index n k v ps) = obj_lookup k' ps.
Proof.
  intros Hne. apply not_eq_sym, String.eqb_neq in Hne.
  induction ps as [|[k0 v0] r IH]; simpl.
  - now rewrite Hne.
  - destruct (array_index k0) as [m|]; [destruct (m <? n)%N|]; simpl;
      rewrite ?Hne, ?IH; reflexivity.
Qed.

Lemma obj_keys_insert_index (n : N) (k k' : string) (v : JsValue) (ps : Props) :
  In k' (obj_keys (obj_insert_index n k v ps)) <-> k' = k \/ In k' (obj_keys ps).
Proof.
  unfold obj_keys. induction ps as [|[k0 v0] r IH]; simpl.
  - intuition.
  - destruct (array_index k0) as [m|]; [destruct (m <? n)%N|]; simpl;
      rewrite ?IH; intuition.
Qed.

Lemma length_insert_index (n : N) (k : string) (v : JsValue) (ps : Props) :
  length (obj_insert_index n k v ps) = S (length ps).
Proof.
  induction ps as [|[k0 v0] r IH]; simpl; [reflexivity|].
  destruct (array_index k0) as [m|]; [destruct (m <? n)%N|]; simpl;
    rewrite ?IH; reflexivity.
Qed.

Lemma obj_lookup_app_same (k : string) (v : JsValue) (ps : Props) :
  obj_lookup k ps = None -> obj_lookup k (ps ++ [(k, v)])%list = Some v.
Proof.
  induction ps as [|[k' v'] r IH]; simpl.
  - now rewrite String.eqb_refl.
  - destruct (k' =? k)%string; [discriminate|exact IH].
Qed.

Lemma obj_lookup_app_other (k k' : string) (v : JsValue) (ps : Props) :
  k' <> k -> obj_lookup k' (ps ++ [(k, v)])%list = obj_lookup k' ps.
Proof.
  intros Hne. apply not_eq_sym, String.eqb_neq in Hne.
  induction ps as [|[k0 v0] r IH]; simpl.
  - now rewrite Hne.
  - now rewrite IH.
Qed.

Lemma obj_has_false (k : string) (ps : Props) :
  obj_has k ps = false -> obj_lookup k ps = None.
Proof.
  unfold obj_has. now destruct (obj_lookup k ps).
Qed.

Lemma obj_has_keys (k : string) (ps : Props) :
  obj_has k ps = true <-> In k (obj_keys ps).
Proof.
  unfold obj_has, obj_keys. induction ps as [|[k' v'] r IH]; simpl.
  - split; [discriminate|tauto].
  - destruct (String.eqb_spec k' k) as [->|Hne].
    + split; [now left|reflexivity].
    + rewrite IH. split; [now right|now intros [H|H]].
Qed.

(** After [{...o, k: v}] the property [k] holds [v]. *)
Lemma obj_lookup_set_same (k : string) (v : JsValue) (ps : Props) :
  obj_lookup k (obj_set k v ps) = Some v.
Proof.
  unfold obj_set. destruct (obj_has k ps) eqn:E.
  - now apply obj_lookup_replace_same.
  - apply obj_has_false in E.
    destruct (array_index k).
    + now apply obj_lookup_insert_index_same.
    + now apply obj_lookup_app_same.
Qed.

(** ... and every other property is as it was in [o]. *)
Lemma obj_lookup_set_other (k k' : string) (v : JsValue) (ps : Props) :
  k' <> k -> obj_lookup k' (obj_set k v ps) = obj_lookup k' ps.
Proof.
  intros Hne. unfold obj_set. destruct (obj_has k ps).
  - now apply obj_lookup_replace_other.
  - destruct (array_index k).
    + now apply obj_lookup_insert_index_other.
    + now apply obj_lookup_app_other.
Qed.

Lemma obj_keys_set (k k' : string) (v : JsValue) (ps : Props) :
  In k' (obj_keys (obj_set k v ps)) <-> k' = k \/ In k' (obj_keys ps).
Proof.
  unfold obj_set. destruct (obj_has k ps) eqn:E.
  - rewrite obj_keys_replace. apply obj_has_keys in E.
    split; [now right|]. now intros [->|H].
  - destruct (array_index k).
    + apply obj_keys_insert_index.
    + unfold obj_keys. rewrite map_app, in_app_iff. simpl. intuition.
Qed.

Lemma length_obj_set (k : string) (v : JsValue) (ps : Props) :
  length (obj_set k v ps) = (length ps + (if obj_has k ps then 0 else 1))%nat.
Proof.
  unfold obj_set. destruct (obj_has k ps).
  - rewrite Nat.add_0_r. unfold obj_keys.
    rewrite <- (length_map fst (obj_replace k v ps)), <- (length_map fst ps).
    f_equal. apply obj_keys_replace.
  - destruct (array_index k).
    + rewrite length_insert_index. lia.
    + rewrite length_app. reflexivity.
Qed.

Lemma obj_set_nil (k : string) (v : JsValue) : obj_set k v [] = [(k, v)].
Proof.
  unfold obj_set. cbn [obj_has obj_lookup]. now destruct (array_index k).
Qed.

Lemma In_obj_replace_same (k : string) (v : JsValue) (ps : Props) :
  obj_has k ps = true -> In (k, v) (obj_replace k v ps).
Proof.
  unfold obj_has. induction ps as [|[k0 v0] r IH]; simpl; [discriminate|].
  destruct (k0 =? k)%string; simpl; [now left|].
  intros H. right. now apply IH.
Qed.

Lemma In_obj_replace_other (k k' : string) (v v' : JsValue) (ps : Props) :
  k' <> k -> In (k', v') (obj_replace k v ps) <-> In (k', v') ps.
Proof.
  intros Hne. induction ps as [|[k0 v0] r IH]; simpl; [reflexivity|].
  destruct (String.eqb_spec k0 k) as [->|H0]; simpl.
  - split; (intros [H|H]; [injection H as H _; congruence | now right]).
  - now rewrite IH.
Qed.

Lemma In_obj_insert_index (n : N) (k : string) (v : JsValue) (ps : Props)
  (p : string * JsValue) :
  In p (obj_insert_index n k v ps) <-> p = (k, v) \/ In p ps.
Proof.
  induction ps as [|[k0 v0] r IH]; simpl.
  - intuition.
  - destruct (array_index k0) as [m|]; [destruct (m <? n)%N|]; simpl;
      rewrite ?IH; intuition.
Qed.

Lemma In_obj_keys (k : string) (v : JsValue) (ps : Props) :
  In (k, v) ps -> In k (obj_keys ps).
Proof.
  intros H. unfold obj_keys. now apply (in_map fst) in H.
Qed.

(** The pair defined by [{...o, k: v}] is in the result ... *)
Lemma In_obj_set_same (k : string) (v : JsValue) (ps : Props) :
  In (k, v) (obj_set k v ps).
Proof.
  unfold obj_set. destruct (obj_has k ps) eqn:E.
  - now apply In_obj_replace_same.
  - destruct (array_index k).
    + apply In_obj_insert_index. now left.
    + apply in_or_app. right. now left.
Qed.

(** ... the pairs under other keys are those of [o] ... *)
Lemma In_obj_set_other (k k' : string) (v v' : JsValue) (ps : Props) :
  k' <> k -> In (k', v') (obj_set k v ps) <-> In (k', v') ps.
Proof.
  intros Hne. unfold obj_set. destruct (obj_has k ps).
  - now apply In_obj_replace_other.
  - destruct (array_index k).
    + rewrite In_obj_insert_index. split; [|now right].
      intros [H|H]; [injection H as H _; congruence | exact H].
    + rewrite in_app_iff. simpl. split; [|now left].
      intros [H|[H|[]]]; [exact H | injection H as H _; congruence].
Qed.

(** ... and, the keys of [o] being distinct, nothing else is under [k]. *)
Lemma In_obj_set_unique (k : string) (v v' : JsValue) (ps : Props) :
  NoDup (obj_keys ps) -> In (k, v') (obj_set k v ps) -> v' = v.
Proof.
  intros Hnd. unfold obj_set. destruct (obj_has k ps) eqn:E.
  - clear E. induction ps as [|[k0 v0] r IH]; simpl; [easy|].
    simpl in Hnd. apply NoDup_cons_iff in Hnd as (Hk0 & Hr).
    destruct (String.eqb_spec k0 k) as [->|H0]; simpl.
    + intros [H|H]; [now injection H as <-|].
      exfalso. apply Hk0. exact (In_obj_keys _ _ _ H).
    + intros [H|H]; [injection H as H _; congruence | now apply IH].
  - assert (Hnot : ~ In (k, v') ps).
    { intros H. apply In_obj_keys, obj_has_keys in H. congruence. }
    destruct (array_index k).
    + rewrite In_obj_insert_index. intros [H|H]; [now injection H|easy].
    + rewrite in_app_iff. simpl.
      intros [H|[H|[]]]; [easy | now injection H].
Qed.

(** The keys of [o] keep their order in [{...o, k: v}]. *)
Lemma obj_keys_set_order (k : string) (v : JsValue) (ps : Props) :
  filter (fun k' => negb (k' =? k)%string) (obj_keys (obj_set k v ps))
  = filter (fun k' => negb (k' =? k)%string) (obj_keys ps).
Proof.
  unfold obj_set. destruct (obj_has k ps).
  - now rewrite obj_keys_replace.
  - destruct (array_index k) as [n|].
    + unfold obj_keys. induction ps as [|[k0 v0] r IH]; simpl.
      * now rewrite String.eqb_refl.
      * destruct (array_index k0) as [m|]; [destruct (m <? n)%N|]; simpl;
          rewrite ?String.eqb_refl; simpl; rewrite ?IH; reflexivity.
    + unfold obj_keys. rewrite map_app, filter_app. simpl.
      rewrite String.eqb_refl. simpl. apply app_nil_r.
Qed.

(** ** The outbound request *)

Lemma call_tool_sends (env : Env) (remote : Remote) (args : JsValue) (w : World) :
  isValidEndpointArgs args = true ->
  sent (snd (call_tool env remote "endpoint" args w))
  = (sent w ++ [build_config env args])%list.
Proof.
  intros H. rewrite (call_tool_valid env remote args w H). cbv zeta.
  destruct (fst (remote (build_config env args) w)) as [response|[]]; reflexivity.
Qed.

Lemma headers_attach_body (args : JsValue) (config : AxiosRequestConfig) :
  headers (attach_body args config) = headers config.
Proof.
  unfold attach_body. now destruct (_ && _).
Qed.

Lemma data_inject_auth (env : Env) (config : AxiosRequestConfig) :
  data (inject_auth env config) = data config.
Proof.
  rewrite inject_auth_spec. now destruct (spec_authHeader env) as [[name value]|].
Qed.

Lemma method_build_config (env : Env) (args : JsValue) :
  method (build_config env args) = get_prop args "method".
Proof.
  unfold build_config. rewrite inject_auth_spec.
  destruct (spec_authHeader env) as [[name value]|]; unfold attach_body;
    now destruct (_ && _).
Qed.

Example bearer_overwrites_caller_authorization :
  headers (build_config bearer_credentials post_user)
  = JObj [("Authorization", JStr "Bearer s3cr3t"); ("Accept-Language", JStr "en-US")].
Proof. reflexivity. Qed.

Example no_mode_passes_headers_through :
  headers (build_config no_credentials post_user)
  = JObj [("Authorization", JStr "Bearer mine"); ("Accept-Language", JStr "en-US")].
Proof. reflexivity. Qed.

(** Header names are property keys: a caller's header spelt in another
    case is a different property and stays next to the injected one. *)
Example other_case_is_another_header :
  headers (build_config bearer_credentials
             (JObj [("method", JStr "GET"); ("endpoint", JStr "/users");
                    ("headers", JObj [("authorization", JStr "Bearer mine")])]))
  = JObj [("authorization", JStr "Bearer mine");
          ("Authorization", JStr "Bearer s3cr3t")].
Proof. reflexivity. Qed.

(** C5: the headers of the outbound request are the caller's headers
    with the one header of the active mode defined on top.  When the caller
    gave the headers h, the request's headers hold the mode's value under
    the mode's header name, whatever h held under that name; under every
    other name they hold what h holds; they are the pairs of h under other
    names, in the order of h, and the mode's pair; that pair is the only
    one of its name when the names of h are distinct; and there is one
    header more than in h exactly when h had none of that name.  When the
    caller gave no headers, the request's headers are the mode's header
    alone.  With no active mode the caller's headers are the request's
    headers, unchanged, and none is added.  This request is the one handed
    to the HTTP client. *)
Theorem auth_header_overlays_caller_headers (env : Env) (args : JsValue) :
  let caller := js_or (get_prop args "headers") (JObj []) in
  let config := build_config env args in
  (forall h, get_prop args "headers" = JObj h -> caller = JObj h) /\
  (get_prop args "headers" = JUndefined -> caller = JObj []) /\
  match spec_authHeader env with
  | Some (name, value) =>
      exists ps,
        headers config = JObj ps /\
        obj_lookup name ps = Some value /\
        (forall k, k <> name -> obj_lookup k ps = obj_lookup k (own_props caller)) /\
        (forall k, In k (obj_keys ps) <-> k = name \/ In k (obj_keys (own_props caller))) /\
        length ps
        = (length (own_props caller)
           + if obj_has name (own_props caller) then 0 else 1)%nat
  | None => headers config = caller
  end /\
  (forall h : Props,
     get_prop args "headers" = JObj h ->
     match spec_authHeader env with
     | Some (name, value) =>
         exists ps,
           headers config = JObj ps /\
           obj_lookup name ps = Some value /\
           (forall k, k <> name -> obj_lookup k ps = obj_lookup k h) /\
           In (name, value) ps /\
           (forall k v, k <> name -> In (k, v) ps <-> In (k, v) h) /\
           (NoDup (map fst h) -> forall v, In (name, v) ps -> v = value) /\
           filter (fun k => negb (k =? name)%string) (map fst ps)
           = filter (fun k => negb (k =? name)%string) (map fst h) /\
           (In name (map fst h) -> length ps = length h) /\
           (~ In name (map fst h) -> length ps = S (length h))
     | None => headers config = JObj h
     end) /\
  (get_prop args "headers" = JUndefined ->
   headers config
   = match spec_authHeader env with
     | Some (name, value) => JObj [(name, value)]
     | None => JObj []
     end) /\
  (forall (remote : Remote) (w : World),
     isValidEndpointArgs args = true ->
     sent (snd (call_tool env remote "endpoint" args w)) = (sent w ++ [config])%list).
Proof.
  cbv zeta. split; [now intros h ->|]. split; [now intros ->|].
  assert (Hheaders :
    headers (build_config env args)
    = match spec_authHeader env with
      | Some (name, value) =>
          JObj (obj_set name value
                  (own_props (js_or (get_prop args "headers") (JObj []))))
      | None => js_or (get_prop args "headers") (JObj [])
      end).
  { unfold build_config. rewrite inject_auth_spec.
    destruct (spec_authHeader env) as [[name value]|];
      cbn [set_headers headers]; now rewrite headers_attach_body. }
  rewrite Hheaders. split; [|split; [|split]].
  - destruct (spec_authHeader env) as [[name value]|]; [|reflexivity].
    eexists. split; [reflexivity|]. split; [apply obj_lookup_set_same|].
    split; [intros k Hk; now apply obj_lookup_set_other|].
    split; [intros k; apply obj_keys_set | apply length_obj_set].
  - intros h ->. cbn [js_or truthy own_props].
    destruct (spec_authHeader env) as [[name value]|]; [|reflexivity].
    eexists. split; [reflexivity|]. split; [apply obj_lookup_set_same|].
    split; [intros k Hk; now apply obj_lookup_set_other|].
    split; [apply In_obj_set_same|].
    split; [intros k v Hk; now apply In_obj_set_other|].
    split; [intros Hnd v; now apply In_obj_set_unique|].
    split; [apply obj_keys_set_order|].
    rewrite length_obj_set. fold (obj_keys h). split.
    + intros H. apply obj_has_keys in H. rewrite H. lia.
    + intros H. destruct (obj_has name h) eqn:E; [|lia].
      apply obj_has_keys in E. contradiction.
  - intros ->. cbn [js_or truthy own_props].
    destruct (spec_authHeader env) as [[name value]|]; [|reflexivity].
    now rewrite obj_set_nil.
  - intros remote w H. now apply call_tool_sends.
Qed.

Example get_with_body_sends_none :
  data (build_config bearer_credentials get_users_with_body) = JUndefined.
Proof. reflexivity. Qed.

Example post_sends_body :
  data (build_config bearer_credentials post_user) = JObj [("name", JStr "John Doe")].
Proof. reflexivity. Qed.

(** C7: the outbound request carries a body only when the method is
    POST or PUT and the caller supplied a body, and then it is the
    caller's; under GET and DELETE it carries none, whatever the
    invocation held.  This request is the one handed to the HTTP
    client. *)
Theorem body_only_on_post_put (env : Env) (args : JsValue) :
  let config := build_config env args in
  (data config <> JUndefined ->
   (get_prop args "method" = JStr "POST" \/ get_prop args "method" = JStr "PUT") /\
   get_prop args "body" <> JUndefined /\
   data config = get_prop args "body") /\
  (get_prop args "method" = JStr "GET" \/ get_prop args "method" = JStr "DELETE" ->
   data config = JUndefined) /\
  (forall (remote : Remote) (w : World),
     isValidEndpointArgs args = true ->
     sent (snd (call_tool env remote "endpoint" args w)) = (sent w ++ [config])%list).
Proof.
  cbv zeta.
  assert (Hdata : data (build_config env args)
                  = if includes (map JStr ["POST"; "PUT"]) (get_prop args "method")
                       && truthy (get_prop args "body")
                    then get_prop args "body" else JUndefined).
  { unfold build_config. rewrite data_inject_auth. unfold attach_body.
    cbn [map]. now destruct (_ && _). }
  split; [|split].
  - rewrite Hdata.
    destruct (includes _ _) eqn:Hm; cbn [andb]; [|now intros H].
    destruct (truthy (get_prop args "body")) eqn:Hb; [|now intros H].
    intros Hdef. apply includes_strings in Hm as (m & Hin & ->).
    split; [|split; [exact Hdef|reflexivity]].
    destruct Hin as [<-|[<-|[]]]; [now left|now right].
  - intros Hm. rewrite Hdata.
    destruct (includes _ _) eqn:Hi; [|reflexivity]. exfalso.
    apply includes_strings in Hi as (m & Hin & Em).
    destruct Hm as [Hm|Hm]; rewrite Hm in Em; injection Em as <-;
      destruct Hin as [[=]|[[=]|[]]].
  - intros remote w H. now apply call_tool_sends.
Qed.

Lemma url_build_config (env : Env) (args : JsValue) :
  url (build_config env args) = normalize (string_of (get_prop args "endpoint")).
Proof.
  unfold build_config. rewrite inject_auth_spec.
  destruct (spec_authHeader env) as [[name value]|]; unfold attach_body;
    now destruct (_ && _).
Qed.

(** The headers of the request of a call that passed the guard are an
    object or an array, never undefined. *)
Lemma headers_build_config (env : Env) (args : JsValue) :
  isValidEndpointArgs args = true ->
  (exists ps, headers (build_config env args) = JObj ps) \/
  (exists xs, headers (build_config env args) = JArr xs).
Proof.
  intros H. apply isValidEndpointArgs_true in H as (_ & _ & _ & Hh).
  unfold build_config. rewrite inject_auth_spec.
  destruct (spec_authHeader env) as [[name value]|].
  - left. now eexists.
  - rewrite headers_attach_body. cbn [initial_config headers].
    destruct Hh as [->|Hh]; [left; now eexists|].
    apply typeof_object in Hh as [->|[(xs & ->)|(ps & ->)]].
    + left. now eexists.
    + right. now eexists.
    + left. now eexists.
Qed.

(** ** Envelopes *)

Lemma Z_to_string_nonneg (z : Z) :
  0 <= z -> Z_to_string z = N_to_string (Z.to_N z).
Proof.
  destruct z; [reflexivity|reflexivity|lia].
Qed.

Example not_found_envelope :
  fst (call_tool bearer_credentials (answers 404 "Not Found") "endpoint" post_user
         start_of_day)
  = Returned
      {| content :=
           [ {| content_type := "text";
                text :=
                  JObj [
                    ("request", JObj [
                       ("url", JStr "https://api.example.com/users");
                       ("method", JStr "POST");
                       ("headers", JObj [("Authorization", JStr "Bearer s3cr3t");
                                         ("Accept-Language", JStr "en-US")]);
                       ("body", JObj [("name", JStr "John Doe")]);
                       ("authMethod", JStr "bearer")]);
                    ("response", JObj [
                       ("statusCode", JNum 404);
                       ("statusText", JStr "Not Found");
                       ("timing", JStr "12ms");
                       ("headers", JObj [("content-type", JStr "application/json")]);
                       ("body", JObj [])]);
                    ("validation", JObj [
                       ("isError", JBool true);
                       ("messages", JArr [JStr "Request failed with status 404"])])] |} ];
         isError := None |}.
Proof. reflexivity. Qed.

Example unreachable_envelope :
  fst (call_tool no_credentials unreachable "endpoint" get_users_with_body
         start_of_day)
  = Returned
      {| content :=
           [ {| content_type := "text";
                text :=
                  JObj [
                    ("error", JObj [
                       ("message", JStr "connect ECONNREFUSED 127.0.0.1:80");
                       ("code", JStr "ECONNREFUSED");
                       ("request", JObj [
                          ("url", JStr "https://api.example.com/users");
                          ("method", JStr "GET");
                          ("headers", JObj [])])])] |} ];
         isError := Some true |}.
Proof. reflexivity. Qed.

(** A failure that is not an axios error is thrown on. *)
Example other_fault_propagates :
  call_tool no_credentials (fun _ w => (Rejected (OtherError (JStr "boom")), now w))
    "endpoint" get_users start_of_day
  = (Thrown (OtherError (JStr "boom")),
     {| now := 1000;
        sent := [ {| method := JStr "GET"; url := "/users";
                     headers := JObj []; data := JUndefined |} ] |}).
Proof. reflexivity. Qed.

(** C2: on every completed exchange, whatever the status, the handler
    returns a success envelope whose [validation.isError] is true exactly
    when the status is at least 400, and whose [validation.messages] is the
    one message "Request failed with status <status>" in that case and
    "Request completed successfully" otherwise. *)
Theorem validation_follows_status (env : Env) (remote : Remote) (args : JsValue)
  (w : World) (response : AxiosResponse) (t : Z) :
  isValidEndpointArgs args = true ->
  remote (build_config env args) w = (Fulfilled response, t) ->
  exists result w',
    call_tool env remote "endpoint" args w = (Returned result, w') /\
    isError result = None /\
    fields_of (envelope_of result) = ["request"; "response"; "validation"] /\
    get_prop (envelope_of result) "validation"
    = JObj [("isError", JBool (status response >=? 400));
            ("messages",
             JArr [JStr (if status response >=? 400
                         then "Request failed with status "
                              ++ Z_to_string (status response)
                         else "Request completed successfully")])] /\
    ((status response >=? 400) = true <-> 400 <= status response).
Proof.
  intros Hvalid Hremote.
  rewrite (call_tool_valid env remote args w Hvalid). cbv zeta.
  rewrite Hremote. cbn [fst snd].
  eexists _, _. split; [reflexivity|]. split; [reflexivity|].
  cbn [envelope_of content text].
  split; [reflexivity|]. split.
  - unfold success_envelope. destruct (status response >=? 400); reflexivity.
  - rewrite Z.geb_le. reflexivity.
Qed.

Lemma validation_follows_status_witness :
  isValidEndpointArgs post_user = true /\
  exists result w',
    call_tool bearer_credentials (answers 404 "Not Found") "endpoint" post_user
      start_of_day = (Returned result, w') /\
    isError result = None /\
    fields_of (envelope_of result) = ["request"; "response"; "validation"] /\
    get_prop (envelope_of result) "validation"
    = JObj [("isError", JBool true);
            ("messages", JArr [JStr "Request failed with status 404"])] /\
    ((404 >=? 400) = true <-> 400 <= 404).
Proof.
  split; [reflexivity|].
  exact (validation_follows_status bearer_credentials (answers 404 "Not Found")
           post_user start_of_day _ _ eq_refl eq_refl).
Defined.

(** C9, as the code has it: a success envelope has exactly the fields
    [request], [response] and [validation]; [response] holds [statusCode],
    [statusText], [timing], [headers] and (unless the client delivers an
    undefined body) [body], in this order.  The field [timing] is a string:
    the second clock reading minus the first, in decimal, followed by "ms";
    when the clock has not gone backwards during the exchange that number
    is a natural number. *)
Theorem success_envelope_fields (env : Env) (remote : Remote) (args : JsValue)
  (w : World) (response : AxiosResponse) (t : Z) :
  isValidEndpointArgs args = true ->
  remote (build_config env args) w = (Fulfilled response, t) ->
  exists result w',
    call_tool env remote "endpoint" args w = (Returned result, w') /\
    isError result = None /\
    fields_of (envelope_of result) = ["request"; "response"; "validation"] /\
    let r := get_prop (envelope_of result) "response" in
    fields_of r
    = (["statusCode"; "statusText"; "timing"; "headers"]
       ++ match response_data response with
          | JUndefined => []
          | _ => ["body"]
          end)%list /\
    get_prop r "statusCode" = JNum (status response) /\
    get_prop r "statusText" = JStr (statusText response) /\
    get_prop r "timing" = JStr (Z_to_string (t - now w) ++ "ms") /\
    get_prop r "headers" = JSON_stringify (JObj (response_headers response)) /\
    get_prop r "body" = JSON_stringify (response_data response) /\
    (now w <= t ->
     exists n : N,
       Z.of_N n = t - now w /\
       get_prop r "timing" = JStr (N_to_string n ++ "ms")).
Proof.
  intros Hvalid Hremote.
  rewrite (call_tool_valid env remote args w Hvalid). cbv zeta.
  rewrite Hremote. cbn [fst snd].
  eexists _, _. split; [reflexivity|]. split; [reflexivity|].
  cbn [envelope_of content text].
  split; [reflexivity|].
  unfold success_envelope.
  split; [destruct (response_data response); reflexivity|].
  split; [reflexivity|]. split; [reflexivity|]. split; [reflexivity|].
  split; [reflexivity|].
  split; [destruct (response_data response); reflexivity|].
  intros Hclock. exists (Z.to_N (t - now w)). split; [lia|].
  rewrite <- Z_to_string_nonneg by lia. reflexivity.
Qed.

Lemma success_envelope_fields_witness :
  isValidEndpointArgs get_users = true /\
  exists result w',
    call_tool no_credentials (answers 200 "OK") "endpoint" get_users start_of_day
    = (Returned result, w') /\
    isError result = None /\
    fields_of (envelope_of result) = ["request"; "response"; "validation"] /\
    let r := get_prop (envelope_of result) "response" in
    fields_of r = ["statusCode"; "statusText"; "timing"; "headers"; "body"] /\
    get_prop r "statusCode" = JNum 200 /\
    get_prop r "statusText" = JStr "OK" /\
    get_prop r "timing" = JStr "12ms" /\
    get_prop r "headers" = JObj [("content-type", JStr "application/json")] /\
    get_prop r "body" = JObj [] /\
    (1000 <= 1012 ->
     exists n : N, Z.of_N n = 12 /\ get_prop r "timing" = JStr (N_to_string n ++ "ms")).
Proof.
  split; [reflexivity|].
  exact (success_envelope_fields no_credentials (answers 200 "OK") get_users
           start_of_day _ _ eq_refl eq_refl).
Defined.

(** C9 as stated fails: the response of a success envelope has no field
    [timingMs]; its timing is the string under [timing], and after an
    exchange during which the clock was set back that string is
    negative. *)
Lemma response_has_timing_not_timingMs :
  (exists result w',
     call_tool no_credentials (answers 200 "OK") "endpoint" get_users start_of_day
     = (Returned result, w') /\
     let r := get_prop (envelope_of result) "response" in
     fields_of r = ["statusCode"; "statusText"; "timing"; "headers"; "body"] /\
     ~ In "timingMs" (fields_of r) /\
     get_prop r "timingMs" = JUndefined /\
     get_prop r "timing" = JStr "12ms") /\
  (exists result w',
     call_tool no_credentials clock_set_back "endpoint" get_users start_of_day
     = (Returned result, w') /\
     get_prop (get_prop (envelope_of result) "response") "timing" = JStr "-5ms").
Proof.
  split.
  - eexists _, _. split; [vm_compute; reflexivity|].
    cbn [envelope_of content text]. cbv zeta.
    split; [reflexivity|]. split; [|split; reflexivity].
    cbn. intros [H|[H|[H|[H|[H|[]]]]]]; discriminate H.
  - eexists _, _. split; [vm_compute; reflexivity|]. reflexivity.
Qed.

(** C1, as the code has it: when the HTTP client fails with an axios
    error, the handler returns a result marked as an error whose envelope
    has the single top-level field [error]; [error] holds [message], [code]
    (when the failure has one) and, inside it, [request]: the url, the
    method, the headers and (when there is one) the body of the request
    that was handed to the client, its headers being those with the auth
    header applied. *)
Theorem transport_failure_envelope (env : Env) (remote : Remote) (args : JsValue)
  (w : World) (message : string) (code : option string) (t : Z) :
  isValidEndpointArgs args = true ->
  remote (build_config env args) w = (Rejected (AxiosError message code), t) ->
  let config := build_config env args in
  exists result w',
    call_tool env remote "endpoint" args w = (Returned result, w') /\
    isError result = Some true /\
    sent w' = (sent w ++ [config])%list /\
    fields_of (envelope_of result) = ["error"] /\
    let error := get_prop (envelope_of result) "error" in
    fields_of error
    = (["message"] ++ match code with Some _ => ["code"] | None => [] end
       ++ ["request"])%list /\
    get_prop error "message" = JStr message /\
    get_prop error "code" = of_env code /\
    let request := get_prop error "request" in
    fields_of request
    = (["url"; "method"; "headers"]
       ++ match data config with JUndefined => [] | _ => ["body"] end)%list /\
    get_prop request "url" = JStr (template (REST_BASE_URL env) ++ url config) /\
    get_prop request "method" = method config /\
    get_prop request "headers" = JSON_stringify (headers config) /\
    get_prop request "body" = JSON_stringify (data config).
Proof.
  intros Hvalid Hremote. cbv zeta.
  rewrite (call_tool_valid env remote args w Hvalid). cbv zeta.
  rewrite Hremote. cbn [fst snd].
  eexists _, _. split; [reflexivity|]. split; [reflexivity|].
  split; [reflexivity|].
  cbn [envelope_of content text].
  rewrite url_build_config.
  pose proof (method_build_config env args) as Hmethod.
  pose proof Hvalid as Hargs.
  apply isValidEndpointArgs_true in Hargs as (_ & (m & _ & Hm) & _ & _).
  rewrite Hm in Hmethod.
  unfold failure_envelope. rewrite Hmethod.
  destruct (headers_build_config env args Hvalid) as [(ps & ->)|(xs & ->)];
    destruct code as [c|]; destruct (data (build_config env args));
    repeat split; reflexivity.
Qed.

Lemma transport_failure_envelope_witness :
  isValidEndpointArgs post_user = true /\
  exists result w',
    call_tool bearer_credentials unreachable "endpoint" post_user start_of_day
    = (Returned result, w') /\
    isError result = Some true /\
    sent w' = [build_config bearer_credentials post_user] /\
    fields_of (envelope_of result) = ["error"] /\
    let error := get_prop (envelope_of result) "error" in
    fields_of error = ["message"; "code"; "request"] /\
    get_prop error "message" = JStr "connect ECONNREFUSED 127.0.0.1:80" /\
    get_prop error "code" = JStr "ECONNREFUSED" /\
    let request := get_prop error "request" in
    fields_of request = ["url"; "method"; "headers"; "body"] /\
    get_prop request "url" = JStr "https://api.example.com/users" /\
    get_prop request "method" = JStr "POST" /\
    get_prop request "headers"
    = JObj [("Authorization", JStr "Bearer s3cr3t"); ("Accept-Language", JStr "en-US")] /\
    get_prop request "body" = JObj [("name", JStr "John Doe")].
Proof.
  split; [reflexivity|].
  exact (transport_failure_envelope bearer_credentials unreachable post_user
           start_of_day _ _ _ eq_refl eq_refl).
Defined.

(** C1 as stated fails: in the envelope of a transport failure the
    request description is a field of [error], not a sibling of it; the
    envelope has no top-level field [request]. *)
Lemma failure_request_nested_in_error :
  exists result w',
    call_tool bearer_credentials unreachable "endpoint" post_user start_of_day
    = (Returned result, w') /\
    isError result = Some true /\
    fields_of (envelope_of result) = ["error"] /\
    fields_of (envelope_of result) <> ["error"; "request"] /\
    get_prop (envelope_of result) "request" = JUndefined /\
    fields_of (get_prop (envelope_of result) "error") = ["message"; "code"; "request"].
Proof.
  eexists _, _. split; [vm_compute; reflexivity|].
  cbn [envelope_of content text].
  repeat split; try reflexivity. discriminate.
Qed.

(** ** More on normalisation *)

Lemma all_slashes_app (a b : string) :
  all_slashes (a ++ b) = all_slashes a && all_slashes b.
Proof.
  induction a as [|c r IH]; simpl; [reflexivity|].
  now rewrite IH, andb_assoc.
Qed.

Lemma drop_trailing_all_slashes (s : string) :
  all_slashes s = true -> drop_trailing_slashes s = EmptyString.
Proof.
  destruct s as [|c r]; [reflexivity|].
  intros H. cbn [drop_trailing_slashes]. now rewrite H.
Qed.

Lemma drop_leading_all_slashes (s : string) :
  all_slashes s = true -> drop_leading_slashes s = EmptyString.
Proof.
  induction s as [|c r IH]; simpl; [reflexivity|].
  destruct (Ascii.eqb c slash); [exact IH|discriminate].
Qed.

Lemma drop_leading_app_slashes (a s : string) :
  all_slashes a = true -> drop_leading_slashes (a ++ s) = drop_leading_slashes s.
Proof.
  induction a as [|c r IH]; simpl; [reflexivity|].
  destruct (Ascii.eqb c slash); [exact IH|discriminate].
Qed.

Lemma drop_trailing_app_slashes (s b : string) :
  all_slashes b = true -> drop_trailing_slashes (s ++ b) = drop_trailing_slashes s.
Proof.
  intros Hb. induction s as [|c r IH].
  - now apply drop_trailing_all_slashes.
  - change (String c r ++ b) with (String c (r ++ b)).
    cbn [drop_trailing_slashes all_slashes].
    now rewrite all_slashes_app, Hb, andb_true_r, IH.
Qed.

Lemma drop_leading_app_not_all (s b : string) :
  all_slashes s = false ->
  drop_leading_slashes (s ++ b) = drop_leading_slashes s ++ b.
Proof.
  induction s as [|c r IH]; simpl; [discriminate|].
  destruct (Ascii.eqb c slash); [exact IH|reflexivity].
Qed.

Lemma strip_slashes_pad (a s b : string) :
  all_slashes a = true -> all_slashes b = true ->
  strip_slashes (a ++ s ++ b) = strip_slashes s.
Proof.
  intros Ha Hb. unfold strip_slashes.
  rewrite drop_leading_app_slashes by exact Ha.
  destruct (all_slashes s) eqn:Hs.
  - rewrite !drop_leading_all_slashes; [reflexivity|exact Hs|].
    now rewrite all_slashes_app, Hs, Hb.
  - rewrite drop_leading_app_not_all by exact Hs.
    now apply drop_trailing_app_slashes.
Qed.

(** X1: slashes added in front of an endpoint or after it do not change
    what it normalises to. *)
Theorem normalize_ignores_outer_slashes (a s b : string) :
  all_slashes a = true -> all_slashes b = true ->
  normalize (a ++ s ++ b) = normalize s.
Proof.
  intros Ha Hb. unfold normalize. now rewrite strip_slashes_pad.
Qed.

Lemma normalize_ignores_outer_slashes_witness :
  all_slashes "//" = true /\ all_slashes "///" = true /\
  normalize ("//" ++ "a//b" ++ "///") = normalize "a//b".
Proof.
  split; [reflexivity|]. split; [reflexivity|].
  apply (normalize_ignores_outer_slashes "//" "a//b" "///"); reflexivity.
Defined.

Lemma drop_leading_slashes_split (s : string) :
  exists a, s = a ++ drop_leading_slashes s /\ all_slashes a = true.
Proof.
  induction s as [|c r (a & Ha & Hs)]; simpl.
  - now exists EmptyString.
  - destruct (Ascii.eqb c slash) eqn:E.
    + exists (String c a). simpl. rewrite E, Hs. split; [now f_equal|reflexivity].
    + now exists EmptyString.
Qed.

Lemma drop_trailing_slashes_split (s : string) :
  exists b, s = drop_trailing_slashes s ++ b /\ all_slashes b = true.
Proof.
  induction s as [|c r (b & Hb & Hs)].
  - now exists EmptyString.
  - cbn [drop_trailing_slashes].
    destruct (all_slashes (String c r)) eqn:E.
    + now exists (String c r).
    + exists b. split; [|exact Hs]. simpl. now f_equal.
Qed.

(** X2: normalising only removes slashes at the two ends: the endpoint
    is a run of slashes, then what follows the leading slash of the
    normalised endpoint, then a run of slashes. *)
Theorem normalize_keeps_the_middle (s : string) :
  exists a t b,
    normalize s = String slash t /\
    s = a ++ t ++ b /\
    all_slashes a = true /\ all_slashes b = true.
Proof.
  destruct (drop_leading_slashes_split s) as (a & Ha & Has).
  destruct (drop_trailing_slashes_split (drop_leading_slashes s)) as (b & Hb & Hbs).
  exists a, (strip_slashes s), b. split; [reflexivity|].
  split; [|now split].
  unfold strip_slashes. now rewrite <- Hb.
Qed.

Lemma all_slashes_ends (v : string) :
  all_slashes v = true -> v <> EmptyString -> ends_with_slash v.
Proof.
  induction v as [|c r IH]; [easy|]. simpl.
  intros H _. apply andb_true_iff in H as [Hc Hr].
  apply Ascii.eqb_eq in Hc. subst c.
  destruct r as [|d r'].
  - now exists EmptyString.
  - destruct (IH Hr) as (u & Hu); [easy|].
    exists (String slash u). simpl. now rewrite <- Hu.
Qed.

Lemma drop_trailing_no_slash_suffix (s u v : string) :
  drop_trailing_slashes s = u ++ v -> all_slashes v = true -> v = EmptyString.
Proof.
  revert u. induction s as [|c r IH]; intros u H Hv.
  - destruct u; [exact (eq_sym H)|discriminate H].
  - cbn [drop_trailing_slashes] in H.
    destruct (all_slashes (String c r)) eqn:E.
    + destruct u; [exact (eq_sym H)|discriminate H].
    + destruct u as [|c' u']; simpl in H.
      * subst v. simpl in Hv. apply andb_true_iff in Hv as [Hc Hd].
        simpl in E. rewrite Hc in E. simpl in E.
        apply all_slashes_drop_trailing in E. congruence.
      * injection H as _ H. exact (IH _ H Hv).
Qed.

Lemma drop_trailing_slashes_not_ending (s : string) :
  ~ ends_with_slash (drop_trailing_slashes s).
Proof.
  intros (u & H).
  now pose proof (drop_trailing_no_slash_suffix s u _ H eq_refl).
Qed.

Lemma drop_leading_slashes_not_starting (s : string) :
  ~ starts_with_slash (drop_leading_slashes s).
Proof.
  intros (u & H).
  destruct (drop_leading_slashes_head s) as [E|(c & r & E & Hc)];
    rewrite E in H; [discriminate|].
  injection H as -> _. unfold slash in Hc. now rewrite Ascii.eqb_refl in Hc.
Qed.

Lemma strip_slashes_not_starting (s : string) :
  ~ starts_with_slash (strip_slashes s).
Proof.
  unfold strip_slashes.
  rewrite <- drop_leading_after_trailing by apply drop_leading_slashes_head.
  apply drop_leading_slashes_not_starting.
Qed.

Lemma drop_leading_id (t : string) :
  ~ starts_with_slash t -> drop_leading_slashes t = t.
Proof.
  destruct t as [|c r]; [reflexivity|]. simpl. intros H.
  destruct (Ascii.eqb_spec c slash) as [->|]; [|reflexivity].
  exfalso. apply H. now exists r.
Qed.

Lemma drop_trailing_id (t : string) :
  ~ ends_with_slash t -> drop_trailing_slashes t = t.
Proof.
  induction t as [|c r IH]; [reflexivity|]. intros H.
  cbn [drop_trailing_slashes].
  destruct (all_slashes (String c r)) eqn:E.
  - exfalso. apply H. now apply all_slashes_ends.
  - f_equal. apply IH. intros (u & Hu). apply H.
    exists (String c u). simpl. now rewrite <- Hu.
Qed.

(** X3: a normalised endpoint is a slash followed by a path that neither
    starts nor ends with a slash, and the endpoints that normalisation
    leaves unchanged are exactly the strings of that shape. *)
Theorem normalize_shape_and_fixpoints (s : string) :
  (exists t, normalize s = String slash t /\
             ~ starts_with_slash t /\ ~ ends_with_slash t) /\
  (normalize s = s <->
   exists t, s = String slash t /\ ~ starts_with_slash t /\ ~ ends_with_slash t).
Proof.
  assert (Hshape : exists t, normalize s = String slash t /\
                             ~ starts_with_slash t /\ ~ ends_with_slash t).
  { exists (strip_slashes s). split; [reflexivity|].
    split; [apply strip_slashes_not_starting|].
    apply drop_trailing_slashes_not_ending. }
  split; [exact Hshape|]. split.
  - intros H. now rewrite H in Hshape.
  - intros (t & -> & Hstart & Hend).
    unfold normalize, strip_slashes. cbn [drop_leading_slashes].
    unfold slash at 1. rewrite Ascii.eqb_refl.
    now rewrite (drop_leading_id t Hstart), (drop_trailing_id t Hend).
Qed.

(** ** Module load and the reported URL *)

Lemma endpoint_build_config (env : Env) (args : JsValue) :
  isValidEndpointArgs args = true ->
  exists endpoint,
    get_prop args "endpoint" = JStr endpoint /\
    url (build_config env args) = normalize endpoint.
Proof.
  intros H. apply isValidEndpointArgs_true in H as (_ & _ & (s & Hs) & _).
  exists s. split; [exact Hs|]. now rewrite url_build_config, Hs.
Qed.

(** The request description as printed, in a success envelope (with
    [authMethod]) and in a failure envelope (without). *)
Lemma printed_request_fields (env : Env) (args : JsValue)
  (mode : option string) (u : string) :
  isValidEndpointArgs args = true ->
  let config := build_config env args in
  let last := match mode with
              | Some a => [("authMethod", JStr a)]
              | None => []
              end in
  let printed :=
    JSON_stringify
      (JObj ([("url", JStr u); ("method", method config);
              ("headers", headers config); ("body", data config)] ++ last)%list) in
  get_prop printed "url" = JStr u /\
  get_prop printed "method" = method config /\
  get_prop printed "headers" = JSON_stringify (headers config) /\
  get_prop printed "body" = JSON_stringify (data config) /\
  get_prop printed "authMethod" = of_env mode /\
  fields_of printed
  = (["url"; "method"; "headers"]
     ++ match data config with JUndefined => [] | _ => ["body"] end
     ++ match mode with Some _ => ["authMethod"] | None => [] end)%list.
Proof.
  intros Hvalid. cbv zeta.
  pose proof (method_build_config env args) as Hmethod.
  pose proof Hvalid as Hargs.
  apply isValidEndpointArgs_true in Hargs as (_ & (m & _ & Hm) & _ & _).
  rewrite Hm in Hmethod. rewrite Hmethod.
  destruct (headers_build_config env args Hvalid) as [(ps & ->)|(xs & ->)];
    destruct mode; destruct (data (build_config env args));
    repeat split; reflexivity.
Qed.

(** X4: the module refuses to load exactly when REST_BASE_URL is unset
    or empty.  Once it has loaded, the url reported in the envelope of a
    completed exchange and in that of a transport failure is the base URL
    followed by the normalised endpoint, the normalised endpoint being the
    url handed to the HTTP client. *)
Theorem loaded_module_reports_full_url (env : Env) :
  (module_load env
   = Thrown (OtherError (JStr "REST_BASE_URL environment variable is required"))
   <-> REST_BASE_URL env = None \/ REST_BASE_URL env = Some "") /\
  (module_load env = Returned tt ->
   exists base,
     REST_BASE_URL env = Some base /\ base <> "" /\
     forall (remote : Remote) (args : JsValue) (w : World),
       isValidEndpointArgs args = true ->
       exists endpoint result,
         get_prop args "endpoint" = JStr endpoint /\
         url (build_config env args) = normalize endpoint /\
         fst (call_tool env remote "endpoint" args w) = result /\
         match fst (remote (build_config env args) w) with
         | Fulfilled _ =>
             exists r, result = Returned r /\
               get_prop (get_prop (envelope_of r) "request") "url"
               = JStr (base ++ normalize endpoint)
         | Rejected (AxiosError _ _) =>
             exists r, result = Returned r /\
               get_prop (get_prop (get_prop (envelope_of r) "error") "request") "url"
               = JStr (base ++ normalize endpoint)
         | Rejected error => result = Thrown error
         end).
Proof.
  unfold module_load, base_url_missing. split.
  - destruct (REST_BASE_URL env) as [[|c r]|]; simpl; split;
      try discriminate; try tauto; intros [H|H]; discriminate H.
  - destruct (REST_BASE_URL env) as [base|] eqn:Hbase; [|discriminate].
    simpl. destruct (String.eqb_spec base ""); [discriminate|]. intros _.
    exists base. split; [reflexivity|]. split; [assumption|].
    intros remote args w Hvalid.
    destruct (endpoint_build_config env args Hvalid) as (endpoint & He & Hu).
    exists endpoint. eexists. split; [exact He|]. split; [exact Hu|].
    split; [reflexivity|].
    rewrite (call_tool_valid env remote args w Hvalid). cbv zeta.
    rewrite He.
    destruct (fst (remote (build_config env args) w)) as [response|[| |]];
      cbn [fst]; try reflexivity.
    + eexists. split; [reflexivity|]. cbn [envelope_of content text].
      unfold success_envelope. rewrite Hbase. cbn [template].
      destruct (status response >=? 400);
        exact (proj1 (printed_request_fields env args (Some (authMethod env))
                        (base ++ normalize endpoint) Hvalid)).
    + eexists. split; [reflexivity|]. cbn [envelope_of content text].
      unfold failure_envelope. rewrite Hbase. cbn [template].
      destruct code;
        exact (proj1 (printed_request_fields env args None
                        (base ++ normalize endpoint) Hvalid)).
Qed.

(** ** What the handler reports and what it sends *)

(** X5: the [request] of a success envelope describes the request that
    was handed to the HTTP client: its url behind the base URL, its method,
    its headers, its body when it has one, and the active authentication
    mode; it has these fields, in this order, and no other. *)
Theorem success_request_description (env : Env) (remote : Remote)
  (args : JsValue) (w : World) (response : AxiosResponse) (t : Z) :
  isValidEndpointArgs args = true ->
  remote (build_config env args) w = (Fulfilled response, t) ->
  let config := build_config env args in
  exists result w',
    call_tool env remote "endpoint" args w = (Returned result, w') /\
    sent w' = (sent w ++ [config])%list /\
    let request := get_prop (envelope_of result) "request" in
    fields_of request
    = (["url"; "method"; "headers"]
       ++ match data config with JUndefined => [] | _ => ["body"] end
       ++ ["authMethod"])%list /\
    get_prop request "url" = JStr (template (REST_BASE_URL env) ++ url config) /\
    get_prop request "method" = method config /\
    get_prop request "headers" = JSON_stringify (headers config) /\
    get_prop request "body" = JSON_stringify (data config) /\
    get_prop request "authMethod" = JStr (authMethod env).
Proof.
  intros Hvalid Hremote. cbv zeta.
  rewrite (call_tool_valid env remote args w Hvalid). cbv zeta.
  rewrite Hremote. cbn [fst snd].
  eexists _, _. split; [reflexivity|]. split; [reflexivity|].
  cbn [envelope_of content text]. rewrite url_build_config.
  pose proof (printed_request_fields env args (Some (authMethod env))
                (template (REST_BASE_URL env)
                 ++ normalize (string_of (get_prop args "endpoint"))) Hvalid)
    as (Hu & Hm & Hh & Hb & Ha & Hf).
  unfold success_envelope.
  destruct (status response >=? 400); repeat split; assumption.
Qed.

Lemma success_request_description_witness :
  isValidEndpointArgs get_users_with_body = true /\
  exists result w',
    call_tool bearer_credentials (answers 200 "OK") "endpoint" get_users_with_body
      start_of_day = (Returned result, w') /\
    sent w' = [build_config bearer_credentials get_users_with_body] /\
    let request := get_prop (envelope_of result) "request" in
    fields_of request = ["url"; "method"; "headers"; "authMethod"] /\
    get_prop request "url" = JStr "https://api.example.com/users" /\
    get_prop request "method" = JStr "GET" /\
    get_prop request "headers" = JObj [("Authorization", JStr "Bearer s3cr3t")] /\
    get_prop request "body" = JUndefined /\
    get_prop request "authMethod" = JStr "bearer".
Proof.
  split; [reflexivity|].
  exact (success_request_description bearer_credentials (answers 200 "OK")
           get_users_with_body start_of_day _ _ eq_refl eq_refl).
Defined.

(** X6: a call hands a request to the HTTP client exactly when it names
    the tool [endpoint] and its arguments pass the guard, and then it hands
    over one request, whatever comes back: a failed exchange is not tried
    again. *)
Theorem one_request_per_accepted_call (env : Env) (remote : Remote)
  (name : string) (args : JsValue) (w : World) :
  sent (snd (call_tool env remote name args w))
  = if (name =? "endpoint")%string && isValidEndpointArgs args
    then (sent w ++ [build_config env args])%list
    else sent w.
Proof.
  destruct (String.eqb_spec name "endpoint") as [->|Hname]; cbn [andb].
  - destruct (isValidEndpointArgs args) eqn:Hvalid.
    + now apply call_tool_sends.
    + now rewrite call_tool_invalid_args.
  - now rewrite call_tool_unknown_tool.
Qed.


(** ** The outbound request, further *)

(** X8: the credentials bear on the headers of the outbound request
    only: its method, its url and its body are the same under every
    configuration. *)
Theorem credentials_touch_headers_only (env env' : Env) (args : JsValue) :
  method (build_config env args) = method (build_config env' args) /\
  url (build_config env args) = url (build_config env' args) /\
  data (build_config env args) = data (build_config env' args).
Proof.
  rewrite !method_build_config, !url_build_config.
  unfold build_config. now rewrite !data_inject_auth.
Qed.

Lemma truthy_false (v : JsValue) :
  truthy v = false <->
  In v [JUndefined; JNull; JBool false; JNum 0; JStr ""].
Proof.
  assert (Hno : forall x : JsValue,
             (forall b, x <> JBool b) -> (forall n, x <> JNum n) ->
             (forall s, x <> JStr s) -> x <> JUndefined -> x <> JNull ->
             ~ In x [JUndefined; JNull; JBool false; JNum 0; JStr ""]).
  { intros x Hb Hn Hs Hu Hl [H|[H|[H|[H|[H|[]]]]]]; subst x; congruence. }
  destruct v as [| |b|n|s|xs|ps]; simpl.
  - tauto.
  - tauto.
  - destruct b; split; try tauto; try discriminate.
    intros [H|[H|[H|[H|[H|[]]]]]]; discriminate H.
  - destruct (Z.eqb_spec n 0) as [->|Hn]; simpl; split; try tauto;
      try discriminate.
    intros [H|[H|[H|[H|[H|[]]]]]]; congruence.
  - destruct (String.eqb_spec s "") as [->|Hs]; simpl; split; try tauto;
      try discriminate.
    intros [H|[H|[H|[H|[H|[]]]]]]; congruence.
  - split; [discriminate|]. intros H. exfalso. revert H.
    apply Hno; congruence.
  - split; [discriminate|]. intros H. exfalso. revert H.
    apply Hno; congruence.
Qed.

(** X9: the body test is a truthiness test: under POST and PUT the body
    is sent unless it is undefined, null, false, 0 or the empty string, and
    one of these is never sent. *)
Theorem falsy_body_is_not_sent (env : Env) (args : JsValue) :
  let body := get_prop args "body" in
  let falsy := [JUndefined; JNull; JBool false; JNum 0; JStr ""] in
  (In body falsy -> data (build_config env args) = JUndefined) /\
  (get_prop args "method" = JStr "POST" \/ get_prop args "method" = JStr "PUT" ->
   ~ In body falsy -> data (build_config env args) = body).
Proof.
  cbv zeta. unfold build_config. rewrite data_inject_auth. unfold attach_body.
  split.
  - intros H. apply truthy_false in H. rewrite H, andb_false_r. reflexivity.
  - intros Hm Hb. rewrite <- truthy_false in Hb.
    apply not_false_is_true in Hb. rewrite Hb.
    destruct Hm as [-> | ->]; reflexivity.
Qed.

(** X10: [headers: null] passes the guard and is treated as no headers
    at all: the outbound request is the one of the same call without
    [headers]. *)
Theorem null_headers_are_no_headers (env : Env) (args args' : JsValue) :
  get_prop args "headers" = JNull ->
  get_prop args' "headers" = JUndefined ->
  get_prop args' "method" = get_prop args "method" ->
  get_prop args' "endpoint" = get_prop args "endpoint" ->
  get_prop args' "body" = get_prop args "body" ->
  isValidEndpointArgs args = isValidEndpointArgs args' /\
  build_config env args = build_config env args'.
Proof.
  intros Hn Hu Hm He Hb. split.
  - destruct args as [| | | | |xs|ps]; try (cbn in Hn; discriminate Hn).
    unfold isValidEndpointArgs at 1. rewrite Hn, <- Hm, <- He.
    destruct args' as [| | | | |xs'|ps']; try reflexivity.
    unfold isValidEndpointArgs. now rewrite Hu.
  - unfold build_config, attach_body, initial_config.
    rewrite Hn, Hu, Hm, He, Hb. reflexivity.
Qed.

Lemma null_headers_are_no_headers_witness :
  let args := JObj [("method", JStr "GET"); ("endpoint", JStr "/users/");
                    ("headers", JNull)] in
  isValidEndpointArgs args = isValidEndpointArgs get_users /\
  build_config bearer_credentials args = build_config bearer_credentials get_users.
Proof.
  apply (null_headers_are_no_headers bearer_credentials
           (JObj [("method", JStr "GET"); ("endpoint", JStr "/users/");
                  ("headers", JNull)]) get_users);
    reflexivity.
Defined.

(** ** The tool listing *)

Example listing_with_bearer :
  fst (list_tools bearer_credentials start_of_day)
  = Returned
      {| tools :=
           [ {| tool_name := "endpoint";
                tool_description :=
                  String.concat line_feed [
                    "Test a REST API endpoint and get detailed response information. ";
                    "";
                    "Base URL: https://api.example.com";
                    "";
                    "Authentication: Bearer token authentication configured";
                    "";
                    "The tool automatically:";
                    "- Normalizes endpoints (adds leading slash, removes trailing slashes)";
                    "- Handles authentication header injection";
                    "- Accepts any HTTP status code as valid";
                    "- Returns detailed response information including:";
                    "  * Full URL called";
                    "  * Status code and text";
                    "  * Response headers";
                    "  * Response body";
                    "  * Request details (method, headers, body)";
                    "  * Response timing";
                    "  * Validation messages";
                    "";
                    "Error Handling:";
                    "- Network errors are caught and returned with descriptive messages";
                    "- Invalid status codes are still returned with full response details";
                    "- Authentication errors include the attempted auth method";
                    "" ];
                tool_inputSchema := endpoint_inputSchema |} ] |}.
Proof. reflexivity. Qed.

(** X11: listing the tools touches nothing and names one tool, and the
    names it does not list are exactly the names under which every call is
    turned down as an unknown tool with nothing sent. *)
Theorem unlisted_names_are_unknown_tools (env : Env) (w : World) (name : string) :
  exists listing,
    list_tools env w = (Returned listing, w) /\
    length (tools listing) = 1%nat /\
    (~ In name (map tool_name (tools listing)) <->
     forall (remote : Remote) (args : JsValue) (w' : World),
       call_tool env remote name args w'
       = (Thrown (McpError MethodNotFound ("Unknown tool: " ++ name)), w')).
Proof.
  eexists. split; [reflexivity|]. split; [reflexivity|].
  cbn [tools map tool_name In]. split.
  - intros H remote args w'. apply call_tool_unknown_tool.
    intros ->. apply H. now left.
  - intros H [<-|[]].
    specialize (H (answers 200 "OK") get_users start_of_day).
    apply (f_equal (fun r => length (sent (snd r)))) in H.
    rewrite call_tool_sends in H by reflexivity. discriminate H.
Qed.

(** X12: arguments that pass the guard have every property the listed
    schema requires, a method taken from the schema's enumeration and a
    string for endpoint; and the guard's test of a method is membership in
    that enumeration. *)
Theorem accepted_arguments_meet_schema (args : JsValue) :
  isValidEndpointArgs args = true ->
  let properties := get_prop endpoint_inputSchema "properties" in
  let methods := elements (get_prop (get_prop properties "method") "enum") in
  (forall k, In (JStr k) (elements (get_prop endpoint_inputSchema "required")) ->
             get_prop args k <> JUndefined) /\
  In (get_prop args "method") methods /\
  JStr (typeof (get_prop args "endpoint"))
  = get_prop (get_prop properties "endpoint") "type" /\
  (forall v, includes [JStr "GET"; JStr "POST"; JStr "PUT"; JStr "DELETE"] v = true
             <-> In v methods).
Proof.
  intros H. apply isValidEndpointArgs_true in H
    as (_ & (m & Hin & Hm) & (s & Hs) & _).
  cbv zeta. cbn [endpoint_inputSchema get_prop obj_lookup String.eqb Ascii.eqb
                 Bool.eqb elements].
  split; [|split; [|split]].
  - intros k [[= <-]|[[= <-]|[]]]; congruence.
  - rewrite Hm.
    change [JStr "GET"; JStr "POST"; JStr "PUT"; JStr "DELETE"]
      with (map JStr ["GET"; "POST"; "PUT"; "DELETE"]).
    now apply in_map.
  - now rewrite Hs.
  - intros v.
    change [JStr "GET"; JStr "POST"; JStr "PUT"; JStr "DELETE"]
      with (map JStr ["GET"; "POST"; "PUT"; "DELETE"]).
    rewrite includes_strings, in_map_iff. split.
    + intros (x & Hx & ->). now exists x.
    + intros (x & <- & Hx). now exists x.
Qed.

Lemma accepted_arguments_meet_schema_witness :
  isValidEndpointArgs post_user = true /\
  (forall k, In (JStr k) [JStr "method"; JStr "endpoint"] ->
             get_prop post_user k <> JUndefined) /\
  In (JStr "POST") [JStr "GET"; JStr "POST"; JStr "PUT"; JStr "DELETE"].
Proof.
  split; [reflexivity|].
  pose proof (accepted_arguments_meet_schema post_user eq_refl) as (H1 & H2 & _).
  split; [exact H1|exact H2].
Defined.

Lemma authMethod_branches (env env' : Env) :
  authMethod env = authMethod env' ->
  truthy (hasBasicAuth env) = truthy (hasBasicAuth env') /\
  (truthy (hasBasicAuth env) = false ->
   truthy (hasBearerAuth env) = truthy (hasBearerAuth env') /\
   (truthy (hasBearerAuth env) = false ->
    truthy (hasApiKeyAuth env) = truthy (hasApiKeyAuth env'))).
Proof.
  unfold authMethod.
  destruct (truthy (hasBasicAuth env)), (truthy (hasBasicAuth env')),
    (truthy (hasBearerAuth env)), (truthy (hasBearerAuth env')),
    (truthy (hasApiKeyAuth env)), (truthy (hasApiKeyAuth env'));
    intros H; try discriminate H; repeat split; try reflexivity;
    intros; try reflexivity; discriminate.
Qed.

(** X13: the listing shows the base URL, the active mode and, of the
    credentials, only the username and the API key header name: two
    configurations that agree on these give the same listing, whatever
    their password, token and API key value. *)
Theorem listing_shows_no_secret (env env' : Env) (w : World) :
  REST_BASE_URL env = REST_BASE_URL env' ->
  AUTH_BASIC_USERNAME env = AUTH_BASIC_USERNAME env' ->
  AUTH_APIKEY_HEADER_NAME env = AUTH_APIKEY_HEADER_NAME env' ->
  authMethod env = authMethod env' ->
  list_tools env w = list_tools env' w.
Proof.
  intros Hbase Huser Hname Hmode.
  apply authMethod_branches in Hmode as (Hb & Hrest).
  unfold list_tools, endpoint_description, authentication_summary.
  rewrite <- Hbase, <- Huser, <- Hname, <- Hb.
  destruct (truthy (hasBasicAuth env)); [reflexivity|].
  destruct (Hrest eq_refl) as (Hbearer & Hrest').
  rewrite <- Hbearer.
  destruct (truthy (hasBearerAuth env)); [reflexivity|].
  now rewrite <- (Hrest' eq_refl).
Qed.

Lemma listing_shows_no_secret_witness :
  let env :=
    {| REST_BASE_URL := Some "https://api.example.com";
       AUTH_BASIC_USERNAME := Some "Aladdin";
       AUTH_BASIC_PASSWORD := Some "open sesame";
       AUTH_BEARER := Some "s3cr3t";
       AUTH_APIKEY_HEADER_NAME := None; AUTH_APIKEY_VALUE := Some "k1" |} in
  let env' :=
    {| REST_BASE_URL := Some "https://api.example.com";
       AUTH_BASIC_USERNAME := Some "Aladdin";
       AUTH_BASIC_PASSWORD := Some "hunter2";
       AUTH_BEARER := None;
       AUTH_APIKEY_HEADER_NAME := None; AUTH_APIKEY_VALUE := None |} in
  authMethod env = authMethod env' /\
  list_tools env start_of_day = list_tools env' start_of_day.
Proof.
  split; [reflexivity|].
  apply listing_shows_no_secret; reflexivity.
Defined.

(** X14: the mode the listing announces is the mode the envelopes
    record and the header injection follows: the summary names Basic with
    the username, Bearer, the API key with its header name, or no
    authentication, exactly when [authMethod] is basic, bearer, apikey or
    none. *)
Theorem listing_announces_the_active_mode (env : Env) :
  (authMethod env = "basic" <->
   exists username,
     AUTH_BASIC_USERNAME env = Some username /\
     authentication_summary env = "Basic Auth with username: " ++ username) /\
  (authMethod env = "bearer" <->
   authentication_summary env = "Bearer token authentication configured") /\
  (authMethod env = "apikey" <->
   exists headerName,
     AUTH_APIKEY_HEADER_NAME env = Some headerName /\
     authentication_summary env = "API Key using header: " ++ headerName) /\
  (authMethod env = "none" <->
   authentication_summary env = "No authentication configured").
Proof.
  unfold authMethod, authentication_summary.
  rewrite truthy_hasBasicAuth, truthy_hasBearerAuth, truthy_hasApiKeyAuth.
  destruct (absent_if_empty (AUTH_BASIC_USERNAME env)) as [u|] eqn:U;
    destruct (absent_if_empty (AUTH_BASIC_PASSWORD env)) as [p|] eqn:P;
    destruct (absent_if_empty (AUTH_BEARER env)) as [b|] eqn:B;
    destruct (absent_if_empty (AUTH_APIKEY_HEADER_NAME env)) as [n|] eqn:N;
    destruct (absent_if_empty (AUTH_APIKEY_VALUE env)) as [v|] eqn:V;
    repeat match goal with
      | H : absent_if_empty _ = Some _ |- _ =>
          apply absent_if_empty_Some in H; rewrite H
      end;
    cbn [template];
    (repeat split; try discriminate; try reflexivity;
     try (intros _; eexists; split; reflexivity);
     try (intros (x & _ & Hx); discriminate Hx)).
Qed.

(** ** Base64 *)

Example base64_decode_credentials :
  base64_decode "QWxhZGRpbjpvcGVuIHNlc2FtZQ==" = Some "Aladdin:open sesame"
  /\ base64_decode "YWI=" = Some "ab"
  /\ base64_decode "YWJj" = Some "abc"
  /\ base64_decode "YQ=" = None.
Proof. repeat split. Qed.

Lemma string_by_threes (P : string -> Prop) :
  P EmptyString ->
  (forall a, P (String a EmptyString)) ->
  (forall a b, P (String a (String b EmptyString))) ->
  (forall a b c r, P r -> P (String a (String b (String c r)))) ->
  forall s, P s.
Proof.
  intros H0 H1 H2 H3.
  refine (fix go (s : string) : P s :=
            match s with
            | EmptyString => H0
            | String a EmptyString => H1 a
            | String a (String b EmptyString) => H2 a b
            | String a (String b (String c r)) => H3 a b c r (go r)
            end).
Qed.

Lemma base64_value_char (n : N) :
  (n < 64)%N -> base64_value (base64_char n) = Some n.
Proof.
  intros H.
  destruct n as [|p]; [reflexivity|].
  do 6 (try (destruct p as [p|p|]; try reflexivity)); exfalso; lia.
Qed.

Lemma base64_value_pad : base64_value "="%char = None.
Proof. reflexivity. Qed.

Lemma N_of_ascii_bound (a : ascii) : (N_of_ascii a < 256)%N.
Proof. apply N_ascii_bounded. Qed.

Ltac sextets :=
  repeat match goal with
    | a : ascii |- _ =>
        lazymatch goal with
        | H : (N_of_ascii a < 256)%N |- _ => fail
        | _ => pose proof (N_of_ascii_bound a)
        end
    end;
  zify; Z.to_euclidean_division_equations; lia.

Lemma ascii_of_N_eq (n : N) (a : ascii) :
  n = N_of_ascii a -> ascii_of_N n = a.
Proof. intros ->. apply ascii_N_embedding. Qed.

Lemma base64_decode_block (a b c : ascii) (r : string) :
  base64_decode (base64 (String a (String b (String c r))))
  = match base64_decode (base64 r) with
    | Some rest => Some (String a (String b (String c rest)))
    | None => None
    end.
Proof.
  cbn [base64]. cbv zeta. cbn [base64_decode].
  rewrite !base64_value_char by sextets.
  destruct (base64_decode (base64 r)); [|reflexivity].
  repeat f_equal; apply ascii_of_N_eq; sextets.
Qed.

Lemma base64_decode_one (a : ascii) :
  base64_decode (base64 (String a EmptyString)) = Some (String a EmptyString).
Proof.
  cbn [base64]. cbv zeta. cbn [base64_decode].
  rewrite !base64_value_char by sextets.
  rewrite base64_value_pad. cbn.
  repeat f_equal; apply ascii_of_N_eq; sextets.
Qed.

Lemma base64_decode_two (a b : ascii) :
  base64_decode (base64 (String a (String b EmptyString)))
  = Some (String a (String b EmptyString)).
Proof.
  cbn [base64]. cbv zeta. cbn [base64_decode].
  rewrite !base64_value_char by sextets.
  rewrite base64_value_pad. cbn.
  repeat f_equal; apply ascii_of_N_eq; sextets.
Qed.

Lemma base64_decode_base64 (s : string) :
  base64_decode (base64 s) = Some s.
Proof.
  revert s. apply string_by_threes.
  - reflexivity.
  - apply base64_decode_one.
  - apply base64_decode_two.
  - intros a b c r IH. now rewrite base64_decode_block, IH.
Qed.

(** X15: base64 loses nothing: decoding what [base64] gives returns the
    bytes that went in, so two different inputs never encode alike; and the
    encoding of n bytes has 4 characters for every 3 bytes or part of 3. *)
Theorem base64_round_trip :
  (forall s : string, base64_decode (base64 s) = Some s) /\
  (forall s s' : string, base64 s = base64 s' -> s = s') /\
  (forall s : string,
     String.length (base64 s) = (4 * ((String.length s + 2) / 3))%nat).
Proof.
  split; [exact base64_decode_base64|]. split.
  - intros s s' H. apply (f_equal base64_decode) in H.
    rewrite !base64_decode_base64 in H. now injection H.
  - apply string_by_threes; try reflexivity.
    intros a b c r IH. cbn [base64]. cbv zeta. cbn [String.length].
    rewrite IH.
    replace (S (S (S (String.length r))) + 2)%nat
      with (1 * 3 + (String.length r + 2))%nat by lia.
    rewrite Nat.div_add_l by discriminate. lia.
Qed.

(** X16: under Basic authentication the request carries, whatever the
    caller's headers and the other credentials, an Authorization header
    that reads Basic followed by an encoding that decodes to the username,
    a colon and the password. *)
Theorem basic_header_carries_credentials (env : Env) (args : JsValue)
  (username password : string) :
  AUTH_BASIC_USERNAME env = Some username -> username <> "" ->
  AUTH_BASIC_PASSWORD env = Some password -> password <> "" ->
  exists encoded,
    get_prop (headers (build_config env args)) "Authorization"
    = JStr ("Basic " ++ encoded) /\
    base64_decode encoded = Some (username ++ ":" ++ password) /\
    authMethod env = "basic".
Proof.
  intros Hu Hune Hp Hpne.
  assert (Hbasic : truthy (hasBasicAuth env) = true).
  { rewrite truthy_hasBasicAuth, Hu, Hp. simpl.
    apply String.eqb_neq in Hune, Hpne. now rewrite Hune, Hpne. }
  exists (base64 (username ++ ":" ++ password)). split; [|split].
  - unfold build_config, inject_auth. rewrite Hbasic, Hu, Hp.
    cbn [set_headers headers template get_prop].
    now rewrite obj_lookup_set_same.
  - apply base64_decode_base64.
  - unfold authMethod. now rewrite Hbasic.
Qed.

Lemma basic_header_carries_credentials_witness :
  exists encoded,
    get_prop (headers (build_config basic_and_bearer_credentials post_user))
      "Authorization"
    = JStr ("Basic " ++ encoded) /\
    base64_decode encoded = Some "Aladdin:open sesame" /\
    authMethod basic_and_bearer_credentials = "basic".
Proof.
  apply (basic_header_carries_credentials basic_and_bearer_credentials post_user
           "Aladdin" "open sesame");
    (reflexivity || discriminate).
Defined.

(** ** Printed trees *)

Lemma JsValue_nested_ind (P : JsValue -> Prop) :
  P JUndefined -> P JNull -> (forall b, P (JBool b)) -> (forall n, P (JNum n)) ->
  (forall s, P (JStr s)) ->
  (forall xs, Forall P xs -> P (JArr xs)) ->
  (forall ps, Forall (fun p => P (snd p)) ps -> P (JObj ps)) ->
  forall v, P v.
Proof.
  intros Hu Hn Hb Hz Hs Ha Ho.
  refine (fix go (v : JsValue) : P v :=
            match v with
            | JUndefined => Hu
            | JNull => Hn
            | JBool b => Hb b
            | JNum n => Hz n
            | JStr s => Hs s
            | JArr xs =>
                Ha xs ((fix all (xs : list JsValue) : Forall P xs :=
                          match xs with
                          | [] => Forall_nil _
                          | x :: r => Forall_cons x (go x) (all r)
                          end) xs)
            | JObj ps =>
                Ho ps ((fix all (ps : Props) : Forall (fun p => P (snd p)) ps :=
                          match ps with
                          | [] => Forall_nil _
                          | (k, x) :: r =>
                              Forall_cons (P := fun p => P (snd p)) (k, x)
                                (go x) (all r)
                          end) ps)
            end).
Qed.

Lemma JSON_stringify_undefined (v : JsValue) :
  JSON_stringify v = JUndefined <-> v = JUndefined.
Proof.
  destruct v; simpl; split; congruence.
Qed.

(** What [JSON.stringify] prints has no undefined left in it. *)
Lemma JSON_stringify_defined (v : JsValue) :
  v <> JUndefined -> defined_throughout (JSON_stringify v) = true.
Proof.
  induction v as [| | | | |xs IH|ps IH] using JsValue_nested_ind;
    intros Hv; try reflexivity; try congruence.
  - clear Hv. cbn [JSON_stringify defined_throughout].
    induction IH as [|x r Hx _ IHr]; [reflexivity|].
    cbn [map forallb]. rewrite IHr, andb_true_r.
    destruct (JSON_stringify x) eqn:E; try reflexivity;
      apply Hx; intros ->; discriminate E.
  - clear Hv. cbn [JSON_stringify defined_throughout].
    induction IH as [|[k x] r Hx _ IHr]; [reflexivity|].
    cbn [snd] in Hx.
    destruct x; try exact IHr; rewrite IHr, andb_true_r;
      apply Hx; discriminate.
Qed.

(** X17: whenever the handler returns, its result holds one text item,
    and the tree printed into it is a JSON object with no undefined value
    anywhere inside. *)
Theorem returned_text_is_a_json_object (env : Env) (remote : Remote)
  (name : string) (args : JsValue) (w w' : World) (result : CallToolResult) :
  call_tool env remote name args w = (Returned result, w') ->
  exists tree fields,
    content result = [ {| content_type := "text"; text := tree |} ] /\
    tree = JObj fields /\
    defined_throughout tree = true.
Proof.
  intros H.
  destruct (String.eqb_spec name "endpoint") as [->|Hname];
    [|rewrite call_tool_unknown_tool in H by assumption; discriminate H].
  destruct (isValidEndpointArgs args) eqn:Hvalid;
    [|rewrite call_tool_invalid_args in H by assumption; discriminate H].
  rewrite (call_tool_valid env remote args w Hvalid) in H. cbv zeta in H.
  destruct (fst (remote (build_config env args) w)) as [response|[| |]];
    try discriminate H; injection H as <- _; cbn [content].
  - eexists _, _. split; [reflexivity|]. split; [reflexivity|].
    apply (JSON_stringify_defined (success_envelope _ _ _ _ _ _)). discriminate.
  - eexists _, _. split; [reflexivity|]. split; [reflexivity|].
    apply (JSON_stringify_defined (failure_envelope _ _ _ _ _)). discriminate.
Qed.

Lemma returned_text_is_a_json_object_witness :
  exists tree fields,
    content
      {| content :=
           [ {| content_type := "text";
                text := JSON_stringify
                          (failure_envelope no_credentials "/users"
                             (build_config no_credentials get_users_with_body)
                             "connect ECONNREFUSED 127.0.0.1:80"
                             (Some "ECONNREFUSED")) |} ];
         isError := Some true |}
    = [ {| content_type := "text"; text := tree |} ] /\
    tree = JObj fields /\
    defined_throughout tree = true.
Proof.
  exact (returned_text_is_a_json_object no_credentials unreachable "endpoint"
           get_users_with_body start_of_day _ _ eq_refl).
Defined.

(** ** The guard, in full *)

(** X18: the guard accepts exactly the objects (arrays excluded) whose
    method is one of the strings GET, POST, PUT and DELETE, whose endpoint
    is a string, and whose headers are missing, null, an array or an
    object; it looks at nothing else, the body included. *)
Theorem guard_accepts_exactly (args : JsValue) :
  isValidEndpointArgs args = true <->
  (exists ps, args = JObj ps) /\
  In (get_prop args "method") [JStr "GET"; JStr "POST"; JStr "PUT"; JStr "DELETE"] /\
  (exists s, get_prop args "endpoint" = JStr s) /\
  (get_prop args "headers" = JUndefined \/
   get_prop args "headers" = JNull \/
   (exists xs, get_prop args "headers" = JArr xs) \/
   (exists h, get_prop args "headers" = JObj h)).
Proof.
  rewrite isValidEndpointArgs_true, typeof_object.
  change [JStr "GET"; JStr "POST"; JStr "PUT"; JStr "DELETE"]
    with (map JStr ["GET"; "POST"; "PUT"; "DELETE"]).
  rewrite in_map_iff.
  split; intros (Ho & (m & Hm) & He & Hh); (split; [exact Ho|]);
    (split; [exists m; intuition congruence|]); split; assumption.
Qed.
